(** * Sentinel-Tracker: the portfolio performance computation

    A shallow embedding of [level1_tracker.py] (the console entry point) and
    [level2_dashboard.py] (the Streamlit dashboard), and the properties of
    the per-position and aggregate computations.

    Numbers.  Python [int]/[float] (and numpy [float64]) values are modelled
    as exact rationals [Q]; equality of computed amounts is [Qeq].  This is
    the reading "within floating-point tolerance": rounding, infinities and
    NaN are outside the model.  Division keeps Python's behaviour on a zero
    divisor: it raises [ZeroDivisionError].  What is proved of the totals
    with [col_sum] is proved of exact sums.  Apart from the independence of
    the order of the rows, which holds of the exact sums only, the
    statements about the totals are those that rounding does not change:
    signs, guards, which rows are summed, and equal results of equal
    operations on equal inputs.  The binary64 sums themselves are given on
    primitive floats ([binary64] below), where their order matters.

    Dictionaries.  The quote dictionary [yf.Ticker(t).info] and the inner
    holding dictionaries are finite maps with string keys; the portfolio
    dictionary, which is iterated, is kept as its items in insertion order. *)

From Stdlib Require Import QArith Qabs Lqa Ascii String PrimFloat.
From stdpp Require Import base option list strings gmap.

Local Open Scope string_scope.
Local Open Scope list_scope.
Local Open Scope Q_scope.

(** ** Python values and exceptions *)

(** The values found under the keys the code reads: [None], a number, or a
    string (the ['symbol'] entry). *)
Inductive pyval :=
  | PyNone
  | PyNum (x : Q)
  | PyStr (s : string).

Inductive exn :=
  | ZeroDivisionError
  | TypeError
  | AttributeError
  | FetchError (msg : string).

Inductive result (A : Type) :=
  | Ok (a : A)
  | Raise (e : exn).
Arguments Ok {A} a.
Arguments Raise {A} e.

(** The error monad, with stdpp's [x ← m; k] notation. *)
#[global] Instance result_ret : MRet result := fun A a => Ok a.
#[global] Instance result_bind : MBind result := fun A B k m =>
  match m with
  | Ok a => k a
  | Raise e => Raise e
  end.
#[global] Instance result_fmap : FMap result := fun A B f m =>
  match m with
  | Ok a => Ok (f a)
  | Raise e => Raise e
  end.

(** [x > y] on numbers. *)
Definition Qgtb (x y : Q) : bool := negb (Qle_bool x y).

(** [x >= y] on numbers. *)
Definition Qgeb (x y : Q) : bool := Qle_bool y x.

(** [bool(v)]: [None], zero and the empty string are false. *)
Definition truthy (v : pyval) : bool :=
  match v with
  | PyNone => false
  | PyNum x => negb (Qeq_bool x 0)
  | PyStr s => negb (String.eqb s "")
  end.

(** [a or b] *)
Definition py_or (a b : pyval) : pyval := if truthy a then a else b.

(** [pd.notna(v)] on a scalar. *)
Definition notna (v : pyval) : bool :=
  match v with
  | PyNone => false
  | _ => true
  end.

(** [d.get(k)] and [d.get(k, dflt)]: the default is used only when the key is
    missing, not when it is present with value [None]. *)
Definition dict_get (d : gmap string pyval) (k : string) : pyval :=
  default PyNone (d !! k).

Definition dict_get_default (d : gmap string pyval) (k : string) (dflt : pyval) : pyval :=
  default dflt (d !! k).

(** A price used as an operand of [-] and [/]: a string raises [TypeError]
    (at [current_price - previous_close] at the latest). *)
Definition as_num (v : pyval) : result Q :=
  match v with
  | PyNum x => Ok x
  | _ => Raise TypeError
  end.

(** [x / y] *)
Definition py_div (x y : Q) : result Q :=
  if Qeq_bool y 0 then Raise ZeroDivisionError else Ok (x / y).

(** [df[col].sum()], as the exact sum of the column.  The code adds
    binary64 values and rounds after each addition; [binary64.sum] below
    is that sum. *)
Definition col_sum {A} (col : A -> Q) (df : list A) : Q :=
  foldr (fun r acc => col r + acc) 0 df.

(** ** The metrics of the specification (section 3) *)

Record PositionMetrics := mkPosition {
  current_value : Q;
  total_cost : Q;
  daily_change_per_share : Q;
  daily_change_value : Q;
  daily_change_percent : Q;
  total_pl : Q;
  total_pl_percent : Q
}.

Record PortfolioMetrics := mkPortfolio {
  total_value : Q;
  sum_total_cost : Q;
  total_daily_gain : Q;
  sum_total_pl : Q;
  total_prev_value : Q;
  portfolio_daily_percent : Q
}.

(** ** level1_tracker.py: the console entry point *)

Module level1_tracker.

(** A Python [dict] that is iterated: its items in insertion order. *)
Definition pydict (V : Type) := list (string * V).

Definition keys {V} (d : pydict V) : list string := d.*1.

Fixpoint lookup_item {V} (d : pydict V) (k : string) : option V :=
  match d with
  | [] => None
  | (k', v) :: d' => if String.eqb k k' then Some v else lookup_item d' k
  end.

(** [PORTFOLIO]: ticker to [{'shares': _, 'avg_cost': _}]. *)
Definition PORTFOLIO : pydict (gmap string Q) :=
  [ ("AAPL", {[ "shares" := 10; "avg_cost" := 170.00 ]});
    ("TSLA", {[ "shares" := 5; "avg_cost" := 220.00 ]});
    ("MSFT", {[ "shares" := 8; "avg_cost" := 300.00 ]});
    ("GOOGL", {[ "shares" := 3; "avg_cost" := 145.00 ]}) ].

(** One record of [data], a row of the returned DataFrame. *)
Record row := mkRow {
  Ticker : pyval;
  Shares : Q;
  Current_Price : Q;
  Prev_Close : Q;
  Current_Value : Q;
  Total_Cost : Q;
  Daily_Change_USD : Q;
  Daily_Pct_Change : Q;
  Total_PL_USD : Q;
  Total_PL_Pct : Q
}.

(** The line printed for a holding that is not computed:
    "Warning: Could not fetch complete data for {ticker}. Skipping..." *)
Inductive warning :=
  | CouldNotFetchCompleteData (ticker : pyval).

(** What one iteration of the loop does: [data.append] or [print]. *)
Inductive outcome :=
  | Appended (r : row)
  | Warned (w : warning).

(** [portfolio.get(ticker, {})]: only a string can be a key of the
    portfolio. *)
Definition portfolio_get (portfolio : pydict (gmap string Q)) (ticker : pyval)
  : gmap string Q :=
  match ticker with
  | PyStr s => default ∅ (lookup_item portfolio s)
  | _ => ∅
  end.

(** [info.get('regularMarketPrice', info.get('currentPrice'))] *)
Definition current_price_of (info : gmap string pyval) : pyval :=
  dict_get_default info "regularMarketPrice" (dict_get info "currentPrice").

(** The body of [if current_price and previous_close and shares > 0]. *)
Definition calculate_metrics (ticker current_price previous_close : pyval)
    (shares avg_cost : Q) : result row :=
  p ← as_num current_price;
  c ← as_num previous_close;
  let current_value := p * shares in
  let total_cost := avg_cost * shares in
  let daily_change_value := p - c in
  q ← py_div daily_change_value c;
  let daily_change_percent := q * 100 in
  let profit_loss := current_value - total_cost in
  pct ← (if Qgtb total_cost 0
         then q' ← py_div profit_loss total_cost; mret (q' * 100)
         else mret 0);
  mret {| Ticker := ticker;
          Shares := shares;
          Current_Price := p;
          Prev_Close := c;
          Current_Value := current_value;
          Total_Cost := total_cost;
          Daily_Change_USD := daily_change_value * shares;
          Daily_Pct_Change := daily_change_percent;
          Total_PL_USD := profit_loss;
          Total_PL_Pct := pct |}.

(** The body of [for info in stock_data]. *)
Definition get_position (portfolio : pydict (gmap string Q))
    (info : gmap string pyval) : result outcome :=
  let ticker := dict_get info "symbol" in
  let current_price := current_price_of info in
  let previous_close := dict_get info "previousClose" in
  let holdings := portfolio_get portfolio ticker in
  let shares := default 0 (holdings !! "shares") in
  let avg_cost := default 0 (holdings !! "avg_cost") in
  if truthy current_price && truthy previous_close && Qgtb shares 0
  then r ← calculate_metrics ticker current_price previous_close shares avg_cost;
       mret (Appended r)
  else mret (Warned (CouldNotFetchCompleteData ticker)).

(** The loop, with [data] and the printed warnings as its state. *)
Fixpoint summary_loop (portfolio : pydict (gmap string Q))
    (stock_data : list (gmap string pyval))
    (data : list row) (printed : list warning)
  : result (list row * list warning) :=
  match stock_data with
  | [] => mret (data, printed)
  | info :: rest =>
      o ← get_position portfolio info;
      match o with
      | Appended r => summary_loop portfolio rest (data ++ [r]) printed
      | Warned w => summary_loop portfolio rest data (printed ++ [w])
      end
  end.

(** Lines 28 to 71: from the fetched [stock_data] to the returned value,
    [None] or the DataFrame, and what was printed. *)
Definition summarize (portfolio : pydict (gmap string Q))
    (stock_data : list (gmap string pyval))
  : result (option (list row) * list warning) :=
  '(data, printed) ← summary_loop portfolio stock_data [] [];
  mret (match data with
        | [] => None
        | _ => Some data
        end, printed).

Section fetch.

(** [yf.Ticker(t).info], which may raise. *)
Variable yf_info : string -> result (gmap string pyval).

(** [[yf.Ticker(t).info for t in tickers]] *)
Fixpoint fetch_all (tickers : list string) : result (list (gmap string pyval)) :=
  match tickers with
  | [] => mret []
  | t :: rest =>
      info ← yf_info t;
      infos ← fetch_all rest;
      mret (info :: infos)
  end.

Definition get_portfolio_summary (portfolio : pydict (gmap string Q))
  : result (option (list row) * list warning) :=
  let tickers := keys portfolio in
  stock_data ← fetch_all tickers;
  summarize portfolio stock_data.

End fetch.

(** The aggregate block of [display_summary]. *)
Definition aggregate (df : list row) : PortfolioMetrics :=
  let total_value := col_sum Current_Value df in
  let total_cost := col_sum Total_Cost df in
  let total_daily_gain := col_sum Daily_Change_USD df in
  let total_prev_value := col_sum (fun r => Prev_Close r * Shares r) df in
  let portfolio_daily_percent :=
    if Qgtb total_prev_value 0
    then total_daily_gain / total_prev_value * 100
    else 0.0 in
  let total_profit_loss := total_value - total_cost in
  {| total_value := total_value;
     sum_total_cost := total_cost;
     total_daily_gain := total_daily_gain;
     sum_total_pl := total_profit_loss;
     total_prev_value := total_prev_value;
     portfolio_daily_percent := portfolio_daily_percent |}.

(** What [display_summary] prints, without the text formatting: either
    "No valid stock data was processed." or the holdings and the
    aggregate block. *)
Inductive display :=
  | NoValidStockData
  | Performance (holdings : list row) (totals : PortfolioMetrics).

Definition display_summary (df : option (list row)) : display :=
  match df with
  | None => NoValidStockData
  | Some df => Performance df (aggregate df)
  end.

(** The [__main__] block for a portfolio: an exception is reported as
    "An error occurred during execution: {e}". *)
Inductive execution :=
  | Displayed (printed : list warning) (shown : display)
  | ErrorOccurred (e : exn).

Definition run (yf_info : string -> result (gmap string pyval))
    (portfolio : pydict (gmap string Q)) : execution :=
  match get_portfolio_summary yf_info portfolio with
  | Ok (portfolio_data, printed) => Displayed printed (display_summary portfolio_data)
  | Raise e => ErrorOccurred e
  end.

Definition main (yf_info : string -> result (gmap string pyval)) : execution :=
  run yf_info PORTFOLIO.

(** The derived fields of a row, as the specification names them. *)
Definition metrics (r : row) : PositionMetrics :=
  {| current_value := Current_Value r;
     total_cost := Total_Cost r;
     daily_change_per_share := Current_Price r - Prev_Close r;
     daily_change_value := Daily_Change_USD r;
     daily_change_percent := Daily_Pct_Change r;
     total_pl := Total_PL_USD r;
     total_pl_percent := Total_PL_Pct r |}.

(** The rest of [display_summary]: which colour and sign a line gets.
    The ANSI codes '\033[92m' and '\033[91m' are [Green] and [Red]; the
    number formats ([.2f], thousands separators) are left out. *)
Inductive colour :=
  | Green
  | Red.

(** ['\033[92m' if x >= 0 else '\033[91m'] *)
Definition daily_color (x : Q) : colour := if Qgeb x 0 then Green else Red.

(** ['+' if x >= 0 else ''] *)
Definition plus_sign (x : Q) : string := if Qgeb x 0 then "+" else "".

(** One line of "Individual Holdings Performance": ticker, price, colour,
    sign, daily percentage, total profit.  Colour and sign are chosen by
    ['Daily Change $'], the number that follows them is ['Daily % Change']. *)
Record holding_line := mkLine {
  line_ticker : pyval;
  line_price : Q;
  line_color : colour;
  line_sign : string;
  line_daily_percent : Q;
  line_total_pl : Q
}.

Definition print_holding (r : row) : holding_line :=
  {| line_ticker := Ticker r;
     line_price := Current_Price r;
     line_color := daily_color (Daily_Change_USD r);
     line_sign := plus_sign (Daily_Change_USD r);
     line_daily_percent := Daily_Pct_Change r;
     line_total_pl := Total_PL_USD r |}.

(** The "Total Daily Change" line: the sign of the amount, the sign of
    the percentage and the colour of the line. *)
Record daily_change_line := mkDaily {
  gain_sign : string;
  percent_sign : string;
  gain_color : colour
}.

Definition print_daily_change (df : list row) : daily_change_line :=
  let totals := aggregate df in
  {| gain_sign := plus_sign (total_daily_gain totals);
     percent_sign := plus_sign (portfolio_daily_percent totals);
     gain_color := daily_color (total_daily_gain totals) |}.

End level1_tracker.

(** ** level2_dashboard.py: the dashboard entry point *)

Module level2_dashboard.

(** [str.upper] and [str.strip] on the ASCII part of a ticker. *)
Definition upper_ascii (c : ascii) : ascii :=
  let n := nat_of_ascii c in
  if ((97 <=? n) && (n <=? 122))%nat then ascii_of_nat (n - 32) else c.

Fixpoint upper (s : string) : string :=
  match s with
  | EmptyString => EmptyString
  | String c s' => String (upper_ascii c) (upper s')
  end.

Definition isspace (c : ascii) : bool :=
  let n := nat_of_ascii c in
  (((9 <=? n) && (n <=? 13)) || ((28 <=? n) && (n <=? 32)))%nat.

Fixpoint lstrip (s : string) : string :=
  match s with
  | EmptyString => EmptyString
  | String c s' => if isspace c then lstrip s' else s
  end.

Definition strip (s : string) : string :=
  String.rev (lstrip (String.rev (lstrip s))).

(** A row of the holdings frame: columns ['Ticker'] (the index after
    [set_index]), ['Shares'] and ['Avg_Cost']. *)
Record holding := mkHolding {
  h_Ticker : string;
  h_Shares : Q;
  h_Avg_Cost : Q
}.

(** A row of the frame built from [results]. *)
Record row := mkRow {
  Ticker : string;
  Shares : Q;
  Avg_Cost : Q;
  Current_Price : Q;
  Previous_Close : Q;
  Current_Value : Q;
  Total_Cost : Q;
  Daily_Gain_Loss_USD : Q;
  Daily_Pct_Change : Q;
  Total_PL_USD : Q;
  Total_PL_Pct : Q
}.

(** The messages shown with [st.error] and [st.warning]:
    - "Error parsing uploaded file. ... Error: {e}"
    - "Skipping {ticker}: Could not retrieve current price or previous close."
    - "Skipping {ticker}: Error fetching data. Ensure the ticker is valid. ({e})"
    - "Dashboard failed to load or has no valid assets to display."
    and the [st.sidebar.info] "Please upload your portfolio CSV file." *)
Inductive message :=
  | ErrorParsingUploadedFile (e : exn)
  | SkippingCouldNotRetrieve (ticker : string)
  | SkippingErrorFetching (ticker : string) (e : exn)
  | DashboardFailedToLoad
  | PleaseUploadPortfolio.

Inductive outcome :=
  | Appended (r : row)
  | Warned (w : message).

(** [df['Ticker'].str.upper().str.strip()], on one row. *)
Definition upper_strip_ticker (h : holding) : holding :=
  {| h_Ticker := strip (upper (h_Ticker h));
     h_Shares := h_Shares h;
     h_Avg_Cost := h_Avg_Cost h |}.

(** [parse_portfolio_input].  The argument is [None] when nothing was
    uploaded, and otherwise what the pandas calls of the [try] block make
    of the file.  [Ok df] is a frame whose ['Ticker'] column holds strings.
    [Raise e] is an exception of the block: the one [pd.read_csv] raises,
    or the [AttributeError] of the [.str] accessor on a frame whose
    ['Ticker'] column does not hold strings (a file of numeric tickers).
    The handler turns either into an error message and an empty frame. *)
Definition parse_portfolio_input (uploaded_file : option (result (list holding)))
  : list holding * list message :=
  match uploaded_file with
  | None => ([], [])
  | Some (Raise e) => ([], [ErrorParsingUploadedFile e])
  | Some (Ok df) =>
      let df := filter (fun h => Qgtb (h_Shares h) 0 = true) df in
      let df := upper_strip_ticker <$> df in
      (df, [])
  end.

(** [ticker_info.get('currentPrice') or ticker_info.get('regularMarketPrice')] *)
Definition current_price_of (ticker_info : gmap string pyval) : pyval :=
  py_or (dict_get ticker_info "currentPrice") (dict_get ticker_info "regularMarketPrice").

Section fetch.

(** [yf.Ticker(ticker).info], which may raise. *)
Variable yf_info : string -> result (gmap string pyval).

(** The body of the [try] block.  [total_pl / total_cost] divides numpy
    scalars under the guard [total_cost > 0]; the division by
    [prev_close] is one of Python numbers and raises on zero. *)
Definition try_position (ticker : string) (shares avg_cost : Q) : result outcome :=
  ticker_info ← yf_info ticker;
  let current_price := current_price_of ticker_info in
  let prev_close := dict_get ticker_info "previousClose" in
  if notna current_price && notna prev_close
  then
    p ← as_num current_price;
    c ← as_num prev_close;
    let current_value := p * shares in
    let total_cost := avg_cost * shares in
    let daily_change_value := p - c in
    let daily_gain_loss := daily_change_value * shares in
    q ← py_div daily_change_value c;
    let daily_percent_change := q * 100 in
    let total_pl := current_value - total_cost in
    let total_pl_percent :=
      if Qgtb total_cost 0 then total_pl / total_cost * 100 else 0 in
    mret (Appended {| Ticker := ticker;
                      Shares := shares;
                      Avg_Cost := avg_cost;
                      Current_Price := p;
                      Previous_Close := c;
                      Current_Value := current_value;
                      Total_Cost := total_cost;
                      Daily_Gain_Loss_USD := daily_gain_loss;
                      Daily_Pct_Change := daily_percent_change;
                      Total_PL_USD := total_pl;
                      Total_PL_Pct := total_pl_percent |})
  else mret (Warned (SkippingCouldNotRetrieve ticker)).

(** The body of [for ticker, row in portfolio_df.iterrows()]:
    [except Exception] turns whatever the [try] block raises into a
    warning. *)
Definition realtime_position (h : holding) : outcome :=
  let ticker := h_Ticker h in
  let shares := h_Shares h in
  let avg_cost := h_Avg_Cost h in
  match try_position ticker shares avg_cost with
  | Ok o => o
  | Raise e => Warned (SkippingErrorFetching ticker e)
  end.

Fixpoint realtime_loop (portfolio_df : list holding)
    (results : list row) (shown : list message) : list row * list message :=
  match portfolio_df with
  | [] => (results, shown)
  | h :: rest =>
      match realtime_position h with
      | Appended r => realtime_loop rest (results ++ [r]) shown
      | Warned w => realtime_loop rest results (shown ++ [w])
      end
  end.

Definition get_realtime_data (portfolio_df : list holding)
  : option (list row) * list message :=
  match portfolio_df with
  | [] => (None, [])
  | _ =>
      let '(results, shown) := realtime_loop portfolio_df [] [] in
      (match results with
       | [] => None
       | _ => Some results
       end, shown)
  end.

(** "Global Metrics Calculation" in [app]. *)
Definition global_metrics (realtime_df : list row) : PortfolioMetrics :=
  let total_value := col_sum Current_Value realtime_df in
  let total_cost := col_sum Total_Cost realtime_df in
  let total_daily_gain := col_sum Daily_Gain_Loss_USD realtime_df in
  let total_pl := col_sum Total_PL_USD realtime_df in
  let total_prev_value := col_sum (fun r => Previous_Close r * Shares r) realtime_df in
  let portfolio_daily_percent :=
    if Qgtb total_prev_value 0
    then total_daily_gain / total_prev_value * 100
    else 0 in
  {| total_value := total_value;
     sum_total_cost := total_cost;
     total_daily_gain := total_daily_gain;
     sum_total_pl := total_pl;
     total_prev_value := total_prev_value;
     portfolio_daily_percent := portfolio_daily_percent |}.

(** What [app] shows, up to the metric tiles: the upload prompt, the
    error before [st.stop()], or the frame with its totals, with the
    messages shown on the way; the first of them is the sidebar hint shown
    when nothing was uploaded.  The cache around [get_realtime_data]
    returns what the call returns. *)
Inductive page :=
  | UploadPrompt
  | Stopped
  | Tiles (realtime_df : list row) (totals : PortfolioMetrics).

Definition app (uploaded_file : option (result (list holding)))
  : page * list message :=
  let sidebar :=
    match uploaded_file with
    | None => [PleaseUploadPortfolio]
    | Some _ => []
    end in
  let '(portfolio_df_config, shown) := parse_portfolio_input uploaded_file in
  match portfolio_df_config with
  | [] => (UploadPrompt, sidebar ++ shown)
  | _ =>
      let '(realtime_df, shown') := get_realtime_data portfolio_df_config in
      match realtime_df with
      | None | Some [] => (Stopped, sidebar ++ shown ++ shown' ++ [DashboardFailedToLoad])
      | Some df => (Tiles df (global_metrics df), sidebar ++ shown ++ shown')
      end
  end.

End fetch.

(** More of [app]: the percentage under "Overall Lifetime P/L", the
    tickers passed to [get_historical_prices] and the rows of the pie
    chart. *)
Definition total_pl_delta (realtime_df : list row) : Q :=
  let total_cost := col_sum Total_Cost realtime_df in
  let total_pl := col_sum Total_PL_USD realtime_df in
  if Qgtb total_cost 0 then total_pl / total_cost * 100 else 0.

Definition tickers (realtime_df : list row) : list string :=
  Ticker <$> realtime_df.

Definition pie_data (realtime_df : list row) : list row :=
  filter (fun r => Qgtb (Current_Value r) 0 = true) realtime_df.

(** The derived fields of a row, as the specification names them. *)
Definition metrics (r : row) : PositionMetrics :=
  {| current_value := Current_Value r;
     total_cost := Total_Cost r;
     daily_change_per_share := Current_Price r - Previous_Close r;
     daily_change_value := Daily_Gain_Loss_USD r;
     daily_change_percent := Daily_Pct_Change r;
     total_pl := Total_PL_USD r;
     total_pl_percent := Total_PL_Pct r |}.

End level2_dashboard.

(** ** What an entry point reads for one position *)

(** The console reads the quote [(p, c)] for [info] and the holding
    [(sh, a)] that [portfolio] has under the quote's symbol. *)
Definition console_reads (portfolio : level1_tracker.pydict (gmap string Q))
    (info : gmap string pyval) (p c : pyval) (sh a : Q) : Prop :=
  level1_tracker.current_price_of info = p /\
  dict_get info "previousClose" = c /\
  default 0 (level1_tracker.portfolio_get portfolio (dict_get info "symbol") !! "shares") = sh /\
  default 0 (level1_tracker.portfolio_get portfolio (dict_get info "symbol") !! "avg_cost") = a.

(** The dashboard fetches for [ticker] a dictionary in which it reads the
    quote [(p, c)]. *)
Definition dashboard_reads (yf_info : string -> result (gmap string pyval))
    (ticker : string) (p c : pyval) : Prop :=
  exists ticker_info,
    yf_info ticker = Ok ticker_info /\
    level2_dashboard.current_price_of ticker_info = p /\
    dict_get ticker_info "previousClose" = c.

(** The rows the two loops append for a numeric quote [(p, c)] with
    [c] not zero, in closed form ([console_computed] and
    [dashboard_computed] below). *)
Definition console_row (ticker : pyval) (p c sh a : Q) : level1_tracker.row :=
  {| level1_tracker.Ticker := ticker;
     level1_tracker.Shares := sh;
     level1_tracker.Current_Price := p;
     level1_tracker.Prev_Close := c;
     level1_tracker.Current_Value := p * sh;
     level1_tracker.Total_Cost := a * sh;
     level1_tracker.Daily_Change_USD := (p - c) * sh;
     level1_tracker.Daily_Pct_Change := (p - c) / c * 100;
     level1_tracker.Total_PL_USD := p * sh - a * sh;
     level1_tracker.Total_PL_Pct :=
       if Qgtb (a * sh) 0 then (p * sh - a * sh) / (a * sh) * 100 else 0 |}.

Definition dashboard_row (ticker : string) (p c sh a : Q) : level2_dashboard.row :=
  {| level2_dashboard.Ticker := ticker;
     level2_dashboard.Shares := sh;
     level2_dashboard.Avg_Cost := a;
     level2_dashboard.Current_Price := p;
     level2_dashboard.Previous_Close := c;
     level2_dashboard.Current_Value := p * sh;
     level2_dashboard.Total_Cost := a * sh;
     level2_dashboard.Daily_Gain_Loss_USD := (p - c) * sh;
     level2_dashboard.Daily_Pct_Change := (p - c) / c * 100;
     level2_dashboard.Total_PL_USD := p * sh - a * sh;
     level2_dashboard.Total_PL_Pct :=
       if Qgtb (a * sh) 0 then (p * sh - a * sh) / (a * sh) * 100 else 0 |}.

(** A position is skipped: the loop prints or shows a warning and appends
    nothing. *)
Definition console_skips (portfolio : level1_tracker.pydict (gmap string Q))
    (info : gmap string pyval) : Prop :=
  exists w, level1_tracker.get_position portfolio info = Ok (level1_tracker.Warned w).

Definition dashboard_skips (yf_info : string -> result (gmap string pyval))
    (h : level2_dashboard.holding) : Prop :=
  exists w, level2_dashboard.realtime_position yf_info h = level2_dashboard.Warned w.

(** A field of a Quote is absent or positive (section 3 of the
    specification); [present] is "not absent". *)
Definition present (v : pyval) : Prop := v <> PyNone.

Definition valid_quote_field (v : pyval) : Prop :=
  v = PyNone \/ exists x, v = PyNum x /\ 0 < x.

(** What the guards of the two loops ask of a quote field. *)
Definition number (v : pyval) : Prop := exists x, v = PyNum x.

Definition nonzero_number (v : pyval) : Prop := exists x, v = PyNum x /\ ~ x == 0.

Definition not_a_string (v : pyval) : Prop := forall s, v <> PyStr s.

(** Equality of metrics as numbers. *)
Definition PositionMetrics_eq (m m' : PositionMetrics) : Prop :=
  current_value m == current_value m' /\
  total_cost m == total_cost m' /\
  daily_change_per_share m == daily_change_per_share m' /\
  daily_change_value m == daily_change_value m' /\
  daily_change_percent m == daily_change_percent m' /\
  total_pl m == total_pl m' /\
  total_pl_percent m == total_pl_percent m'.


(** ** Sample inputs *)

(** The holding [{ticker: "X", shares: 10, avg_cost: 100}] as a console
    portfolio and as a dashboard row. *)
Definition portfolio_X : level1_tracker.pydict (gmap string Q) :=
  [ ("X", {[ "shares" := 10; "avg_cost" := 100 ]}) ].

Definition holding_X : level2_dashboard.holding :=
  level2_dashboard.mkHolding "X" 10 100.


(** Quotes for "X": 110 after a close of 108, the same with a previous
    close of 0, one with no price at all, and one whose two price keys
    disagree. *)
Definition quote_X : gmap string pyval :=
  {[ "symbol" := PyStr "X"; "currentPrice" := PyNum 110;
     "regularMarketPrice" := PyNum 110; "previousClose" := PyNum 108 ]}.

Definition quote_X_zero_close : gmap string pyval :=
  {[ "symbol" := PyStr "X"; "currentPrice" := PyNum 110;
     "regularMarketPrice" := PyNum 110; "previousClose" := PyNum 0 ]}.

Definition quote_X_missing : gmap string pyval :=
  {[ "symbol" := PyStr "X"; "previousClose" := PyNum 108 ]}.

Definition quote_X_two_prices : gmap string pyval :=
  {[ "symbol" := PyStr "X"; "currentPrice" := PyNum 110;
     "regularMarketPrice" := PyNum 111; "previousClose" := PyNum 108 ]}.

(** The figures of end-to-end scenario 1; the daily percentage is 50/27,
    which is 1.85 to two decimals. *)
Definition scenario_1_metrics (m : PositionMetrics) : Prop :=
  current_value m == 1100 /\
  total_cost m == 1000 /\
  total_pl m == 100 /\
  total_pl_percent m == 10.0 /\
  daily_change_value m == 20 /\
  daily_change_percent m == 50 # 27 /\
  Qabs (daily_change_percent m - 1.85) < 0.005.


(** A market source that knows "X", has no price for "Y" and fails for
    every other ticker, with portfolios and holdings to try it on. *)
Definition quote_Y_missing : gmap string pyval :=
  {[ "symbol" := PyStr "Y"; "previousClose" := PyNum 50 ]}.

Definition yf_sample (t : string) : result (gmap string pyval) :=
  if String.eqb t "X" then Ok quote_X
  else if String.eqb t "Y" then Ok quote_Y_missing
  else Raise (FetchError "Not Found").

Definition portfolio_XY : level1_tracker.pydict (gmap string Q) :=
  [ ("X", {[ "shares" := 10; "avg_cost" := 100 ]});
    ("Y", {[ "shares" := 4; "avg_cost" := 60 ]}) ].

Definition portfolio_XZ : level1_tracker.pydict (gmap string Q) :=
  [ ("X", {[ "shares" := 10; "avg_cost" := 100 ]});
    ("Z", {[ "shares" := 2; "avg_cost" := 30 ]}) ].

Definition holding_Y : level2_dashboard.holding :=
  level2_dashboard.mkHolding "Y" 4 60.

Definition holding_Z : level2_dashboard.holding :=
  level2_dashboard.mkHolding "Z" 2 30.

(** ** Rows the loops can produce *)

(** A row of the console frame: its ticker is a key of the portfolio, its
    shares are that holding's and positive, and it is the row computed
    from a price and a previous close that are not zero. *)
Definition console_row_of (portfolio : level1_tracker.pydict (gmap string Q))
    (r : level1_tracker.row) : Prop :=
  exists s hd p c,
    level1_tracker.lookup_item portfolio s = Some hd /\
    hd !! "shares" = Some (level1_tracker.Shares r) /\
    0 < level1_tracker.Shares r /\
    ~ p == 0 /\ ~ c == 0 /\
    r = console_row (PyStr s) p c (level1_tracker.Shares r) (default 0 (hd !! "avg_cost")).

(** A row of the dashboard frame for the uploaded rows [uploaded]: it
    belongs to an uploaded row with positive shares, under the cleaned
    ticker, and its previous close is not zero. *)
Definition dashboard_row_of (uploaded : list level2_dashboard.holding)
    (r : level2_dashboard.row) : Prop :=
  exists h p c,
    h ∈ uploaded /\
    0 < level2_dashboard.h_Shares h /\
    ~ c == 0 /\
    r = dashboard_row
          (level2_dashboard.strip (level2_dashboard.upper (level2_dashboard.h_Ticker h)))
          p c (level2_dashboard.h_Shares h) (level2_dashboard.h_Avg_Cost h).

(** A quote whose price fields hold numbers or [None]. *)
Definition numeric_quote (info : gmap string pyval) : Prop :=
  not_a_string (level1_tracker.current_price_of info) /\
  not_a_string (dict_get info "previousClose").

(** The console portfolio that holds the rows [hs] of a holdings frame,
    and a market source that answers the ticker of [h] with a quote under
    that symbol whose two price keys agree. *)
Definition holdings_dict (h : level2_dashboard.holding) : gmap string Q :=
  {[ "shares" := level2_dashboard.h_Shares h;
     "avg_cost" := level2_dashboard.h_Avg_Cost h ]}.

Definition portfolio_of (hs : list level2_dashboard.holding)
  : level1_tracker.pydict (gmap string Q) :=
  (fun h => (level2_dashboard.h_Ticker h, holdings_dict h)) <$> hs.

Definition agreeing_quote (yf_info : string -> result (gmap string pyval))
    (h : level2_dashboard.holding) : Prop :=
  exists info p c,
    yf_info (level2_dashboard.h_Ticker h) = Ok info /\
    dict_get info "symbol" = PyStr (level2_dashboard.h_Ticker h) /\
    info !! "currentPrice" = Some (PyNum p) /\
    info !! "regularMarketPrice" = Some (PyNum p) /\
    0 < p /\
    info !! "previousClose" = Some (PyNum c) /\ 0 < c.

(** A console row and a dashboard row that hold the same numbers: the
    same derived fields, shares, price and previous close.  The equalities
    are those of the values themselves: both rows are computed by the same
    operations from the same inputs. *)
Definition same_figures (r1 : level1_tracker.row) (r2 : level2_dashboard.row) : Prop :=
  level1_tracker.metrics r1 = level2_dashboard.metrics r2 /\
  level1_tracker.Shares r1 = level2_dashboard.Shares r2 /\
  level1_tracker.Current_Price r1 = level2_dashboard.Current_Price r2 /\
  level1_tracker.Prev_Close r1 = level2_dashboard.Previous_Close r2.

(** The totals that the two entry points compute in the same way: the
    four column sums and the daily percentage.  The lifetime profit is not
    among them: the console takes the difference of two sums, the dashboard
    the sum of the rows' profits. *)
Definition same_totals (m m' : PortfolioMetrics) : Prop :=
  total_value m = total_value m' /\
  sum_total_cost m = sum_total_cost m' /\
  total_daily_gain m = total_daily_gain m' /\
  total_prev_value m = total_prev_value m' /\
  portfolio_daily_percent m == portfolio_daily_percent m'.

(** The first character of a string is whitespace. *)
Definition leading_space (s : string) : bool :=
  match s with
  | EmptyString => false
  | String c _ => level2_dashboard.isspace c
  end.

(** A string without leading or trailing whitespace and without lowercase
    ASCII letters. *)
Definition clean_ticker (s : string) : Prop :=
  level2_dashboard.upper s = s /\ level2_dashboard.strip s = s.

(** ** The column sums in binary64 *)

#[local] Set Warnings "-inexact-float".

Module binary64.

(** [df[col].sum()] on a short column of binary64 values: the values are
    added from left to right and every addition is rounded. *)
Definition sum (col : list float) : float :=
  fold_left PrimFloat.add col 0%float.

(** A row, as far as the totals below use it: current price, previous
    close and shares.  ['Current Value'] is [current_price * shares] and
    ['Daily Change $'] is [(current_price - previous_close) * shares]. *)
Definition row : Type := float * float * float.

Definition total_value (df : list row) : float :=
  sum (map (fun '(p, c, sh) => (p * sh)%float) df).

Definition total_daily_gain (df : list row) : float :=
  sum (map (fun '(p, c, sh) => ((p - c) * sh)%float) df).




End binary64.

(** * Properties *)

(** ** Numbers, truth values and division *)

Lemma Qgtb_true (x y : Q) : Qgtb x y = true <-> y < x.
Proof.
  unfold Qgtb. rewrite negb_true_iff. split.
  - intros Hb. apply Qnot_le_lt. intros Hle.
    apply Qle_bool_iff in Hle. congruence.
  - intros Hlt. apply not_true_is_false. intros Hb.
    apply Qle_bool_iff in Hb. lra.
Qed.

Lemma Qgtb_false (x y : Q) : Qgtb x y = false <-> x <= y.
Proof.
  unfold Qgtb. rewrite negb_false_iff. apply Qle_bool_iff.
Qed.

Lemma Qeq_bool_false (x y : Q) : Qeq_bool x y = false <-> ~ x == y.
Proof.
  split.
  - apply Qeq_bool_neq.
  - intros Hne. apply not_true_is_false. intros Hb.
    apply Hne, Qeq_bool_iff, Hb.
Qed.


Lemma truthy_num (x : Q) : truthy (PyNum x) = true <-> ~ x == 0.
Proof.
  simpl. rewrite negb_true_iff. apply Qeq_bool_false.
Qed.

Lemma truthy_zero (x : Q) : x == 0 -> truthy (PyNum x) = false.
Proof.
  intros Hx. simpl. apply negb_false_iff, Qeq_bool_iff, Hx.
Qed.

Lemma py_div_nonzero (x y : Q) : ~ y == 0 -> py_div x y = Ok (x / y).
Proof.
  intros Hy. unfold py_div. apply Qeq_bool_false in Hy. by rewrite Hy.
Qed.

Lemma py_div_zero (x y : Q) : y == 0 -> py_div x y = Raise ZeroDivisionError.
Proof.
  intros Hy. unfold py_div. apply Qeq_bool_iff in Hy. by rewrite Hy.
Qed.

Lemma py_div_inv (x y q : Q) : py_div x y = Ok q -> ~ y == 0 /\ q = x / y.
Proof.
  unfold py_div. destruct (Qeq_bool y 0) eqn:E; [done |].
  intros [= <-]. split; [by apply Qeq_bool_false | done].
Qed.

(** ** One position in the console *)

Section console_position.

Variable portfolio : level1_tracker.pydict (gmap string Q).
Variable info : gmap string pyval.

Lemma calculate_metrics_num (ticker : pyval) (p c sh a : Q) :
  ~ c == 0 ->
  level1_tracker.calculate_metrics ticker (PyNum p) (PyNum c) sh a =
    Ok (console_row ticker p c sh a).
Proof.
  intros Hc0. unfold level1_tracker.calculate_metrics, console_row.
  cbn [as_num mbind result_bind mret result_ret].
  rewrite (py_div_nonzero _ _ Hc0).
  cbn [mbind result_bind mret result_ret].
  destruct (Qgtb (a * sh) 0) eqn:E; [| done].
  apply Qgtb_true in E.
  rewrite py_div_nonzero; [done | lra].
Qed.

Lemma console_computed (p c sh a : Q) :
  console_reads portfolio info (PyNum p) (PyNum c) sh a ->
  ~ p == 0 -> ~ c == 0 -> 0 < sh ->
  level1_tracker.get_position portfolio info =
    Ok (level1_tracker.Appended (console_row (dict_get info "symbol") p c sh a)).
Proof.
  intros (Hp & Hc & Hsh & Ha) Hp0 Hc0 Hpos.
  unfold level1_tracker.get_position. rewrite Hp, Hc, Hsh, Ha.
  apply truthy_num in Hp0. apply Qgtb_true in Hpos.
  rewrite Hp0, (proj2 (truthy_num c) Hc0), Hpos.
  cbn [andb]. by rewrite (calculate_metrics_num _ _ _ _ _ Hc0).
Qed.

Lemma console_skipped (p c : pyval) (sh a : Q) :
  console_reads portfolio info p c sh a ->
  truthy p = false \/ truthy c = false \/ sh <= 0 ->
  level1_tracker.get_position portfolio info =
    Ok (level1_tracker.Warned
          (level1_tracker.CouldNotFetchCompleteData (dict_get info "symbol"))).
Proof.
  intros (Hp & Hc & Hsh & Ha) H.
  unfold level1_tracker.get_position. rewrite Hp, Hc, Hsh.
  destruct H as [-> | [-> | H]]; [done | by rewrite andb_false_r |].
  apply Qgtb_false in H. by rewrite H, andb_false_r.
Qed.

Lemma console_appended_inv (r : level1_tracker.row) :
  level1_tracker.get_position portfolio info = Ok (level1_tracker.Appended r) ->
  exists p c sh a,
    console_reads portfolio info (PyNum p) (PyNum c) sh a /\
    ~ p == 0 /\ ~ c == 0 /\ 0 < sh /\
    r = console_row (dict_get info "symbol") p c sh a.
Proof.
  intros Hr. pose proof Hr as Hr'. revert Hr'.
  unfold level1_tracker.get_position.
  destruct (truthy (level1_tracker.current_price_of info)) eqn:Ep; [| done].
  destruct (truthy (dict_get info "previousClose")) eqn:Ec; [| done].
  destruct (Qgtb _ 0) eqn:Es; [| done]. cbn [andb].
  destruct (level1_tracker.current_price_of info) as [| p | s] eqn:Hp; [done | | done].
  destruct (dict_get info "previousClose") as [| c | s] eqn:Hc; [done | | done].
  intros _. apply truthy_num in Ep, Ec. apply Qgtb_true in Es.
  eexists p, c, _, _.
  assert (Hreads : console_reads portfolio info (PyNum p) (PyNum c)
            (default 0 (level1_tracker.portfolio_get portfolio (dict_get info "symbol") !! "shares"))
            (default 0 (level1_tracker.portfolio_get portfolio (dict_get info "symbol") !! "avg_cost")))
    by done.
  repeat (split; [eassumption |]).
  rewrite (console_computed _ _ _ _ Hreads Ep Ec Es) in Hr. by injection Hr.
Qed.

(** The loop body never raises on a quote made of numbers and [None]. *)
Lemma console_no_raise (p c : pyval) (sh a : Q) (e : exn) :
  console_reads portfolio info p c sh a ->
  (forall s, p <> PyStr s) -> (forall s, c <> PyStr s) ->
  level1_tracker.get_position portfolio info <> Raise e.
Proof.
  intros Hreads Hp Hc.
  destruct (truthy p) eqn:Ep; [| by erewrite console_skipped; eauto].
  destruct (truthy c) eqn:Ec; [| by erewrite console_skipped; eauto].
  destruct (Qgtb sh 0) eqn:Es; cycle 1.
  { apply Qgtb_false in Es. by erewrite console_skipped; eauto. }
  destruct p as [| p | s]; [done | | by destruct (Hp s)].
  destruct c as [| c | s]; [done | | by destruct (Hc s)].
  apply truthy_num in Ep, Ec. apply Qgtb_true in Es.
  by rewrite (console_computed _ _ _ _ Hreads Ep Ec Es).
Qed.

End console_position.

(** ** One position in the dashboard *)

Section dashboard_position.

Variable yf_info : string -> result (gmap string pyval).

Lemma dashboard_computed (ticker : string) (p c sh a : Q) :
  dashboard_reads yf_info ticker (PyNum p) (PyNum c) ->
  ~ c == 0 ->
  level2_dashboard.realtime_position yf_info (level2_dashboard.mkHolding ticker sh a) =
    level2_dashboard.Appended (dashboard_row ticker p c sh a).
Proof.
  intros (ticker_info & Hf & Hp & Hc) Hc0.
  unfold level2_dashboard.realtime_position, level2_dashboard.try_position.
  cbn [level2_dashboard.h_Ticker level2_dashboard.h_Shares level2_dashboard.h_Avg_Cost].
  rewrite Hf. cbn [mbind result_bind]. rewrite Hp, Hc.
  cbn [notna andb as_num mbind result_bind].
  by rewrite (py_div_nonzero _ _ Hc0).
Qed.

Lemma dashboard_zero_close (ticker : string) (p c sh a : Q) :
  dashboard_reads yf_info ticker (PyNum p) (PyNum c) ->
  c == 0 ->
  level2_dashboard.realtime_position yf_info (level2_dashboard.mkHolding ticker sh a) =
    level2_dashboard.Warned
      (level2_dashboard.SkippingErrorFetching ticker ZeroDivisionError).
Proof.
  intros (ticker_info & Hf & Hp & Hc) Hc0.
  unfold level2_dashboard.realtime_position, level2_dashboard.try_position.
  cbn [level2_dashboard.h_Ticker level2_dashboard.h_Shares level2_dashboard.h_Avg_Cost].
  rewrite Hf. cbn [mbind result_bind]. rewrite Hp, Hc.
  cbn [notna andb as_num mbind result_bind].
  by rewrite (py_div_zero _ _ Hc0).
Qed.

Lemma dashboard_missing (ticker : string) (p c : pyval) (sh a : Q) :
  dashboard_reads yf_info ticker p c ->
  p = PyNone \/ c = PyNone ->
  level2_dashboard.realtime_position yf_info (level2_dashboard.mkHolding ticker sh a) =
    level2_dashboard.Warned (level2_dashboard.SkippingCouldNotRetrieve ticker).
Proof.
  intros (ticker_info & Hf & Hp & Hc) H.
  unfold level2_dashboard.realtime_position, level2_dashboard.try_position.
  cbn [level2_dashboard.h_Ticker level2_dashboard.h_Shares level2_dashboard.h_Avg_Cost].
  rewrite Hf. cbn [mbind result_bind]. rewrite Hp, Hc.
  destruct H as [-> | ->]; [done | by rewrite andb_false_r].
Qed.

Lemma dashboard_appended_inv (h : level2_dashboard.holding) (r : level2_dashboard.row) :
  level2_dashboard.realtime_position yf_info h = level2_dashboard.Appended r ->
  exists p c,
    dashboard_reads yf_info (level2_dashboard.h_Ticker h) (PyNum p) (PyNum c) /\
    ~ c == 0 /\
    r = dashboard_row (level2_dashboard.h_Ticker h) p c
          (level2_dashboard.h_Shares h) (level2_dashboard.h_Avg_Cost h).
Proof.
  destruct h as [ticker sh a]. intros Hr. pose proof Hr as Hr'. revert Hr'.
  unfold level2_dashboard.realtime_position, level2_dashboard.try_position.
  cbn [level2_dashboard.h_Ticker level2_dashboard.h_Shares level2_dashboard.h_Avg_Cost].
  destruct (yf_info ticker) as [ticker_info |] eqn:Hf; [| done].
  cbn [mbind result_bind].
  destruct (level2_dashboard.current_price_of ticker_info) as [| p | s] eqn:Hp;
    destruct (dict_get ticker_info "previousClose") as [| c | s'] eqn:Hc;
    cbn [notna andb as_num mbind result_bind mret result_ret]; try done.
  destruct (py_div (p - c) c) as [q |] eqn:Hq; [| done].
  apply py_div_inv in Hq as [Hc0 _]. intros _.
  assert (Hreads : dashboard_reads yf_info ticker (PyNum p) (PyNum c))
    by (by exists ticker_info).
  exists p, c. repeat (split; [eassumption |]).
  rewrite (dashboard_computed _ _ _ _ _ Hreads Hc0) in Hr. by injection Hr.
Qed.

End dashboard_position.

(** ** The console loop *)

Section console_loop.

Variable portfolio : level1_tracker.pydict (gmap string Q).

(** The rows collected do not depend on what was printed so far. *)
Lemma summary_loop_data (stock_data : list (gmap string pyval)) :
  forall data printed printed',
    fst <$> level1_tracker.summary_loop portfolio stock_data data printed =
    fst <$> level1_tracker.summary_loop portfolio stock_data data printed'.
Proof.
  induction stock_data as [| info rest IH]; intros data printed printed'; [done |].
  cbn [level1_tracker.summary_loop].
  destruct (level1_tracker.get_position portfolio info) as [[r | w] | e];
    cbn [mbind result_bind]; [apply IH | apply IH | done].
Qed.

Lemma summary_loop_skip (l1 l2 : list (gmap string pyval)) (info : gmap string pyval) :
  console_skips portfolio info ->
  forall data printed,
    fst <$> level1_tracker.summary_loop portfolio (l1 ++ info :: l2) data printed =
    fst <$> level1_tracker.summary_loop portfolio (l1 ++ l2) data printed.
Proof.
  intros [w Hw]. induction l1 as [| info' l1 IH]; intros data printed.
  - cbn [app level1_tracker.summary_loop]. rewrite Hw.
    cbn [mbind result_bind]. apply summary_loop_data.
  - cbn [app level1_tracker.summary_loop].
    destruct (level1_tracker.get_position portfolio info') as [[r | w'] | e];
      cbn [mbind result_bind]; [apply IH | apply IH | done].
Qed.

Lemma summarize_frame (stock_data : list (gmap string pyval)) :
  fst <$> level1_tracker.summarize portfolio stock_data =
  (fun data => match data with [] => None | _ => Some data end) <$>
    (fst <$> level1_tracker.summary_loop portfolio stock_data [] []).
Proof.
  unfold level1_tracker.summarize.
  by destruct (level1_tracker.summary_loop portfolio stock_data [] []) as [[data printed] | e].
Qed.

Lemma summarize_skip (l1 l2 : list (gmap string pyval)) (info : gmap string pyval) :
  console_skips portfolio info ->
  fst <$> level1_tracker.summarize portfolio (l1 ++ info :: l2) =
  fst <$> level1_tracker.summarize portfolio (l1 ++ l2).
Proof.
  intros Hskip. rewrite !summarize_frame. f_equal. by apply summary_loop_skip.
Qed.

(** When every position is skipped nothing is collected. *)
Lemma summary_loop_all_skipped (stock_data : list (gmap string pyval)) :
  Forall (console_skips portfolio) stock_data ->
  forall data printed,
    exists printed',
      level1_tracker.summary_loop portfolio stock_data data printed = Ok (data, printed').
Proof.
  induction 1 as [| info rest [w Hw] _ IH]; intros data printed.
  - by exists printed.
  - cbn [level1_tracker.summary_loop]. rewrite Hw. cbn [mbind result_bind]. apply IH.
Qed.

(** The rows only grow: what is returned is never an empty frame. *)
Lemma summary_loop_extends (stock_data : list (gmap string pyval)) :
  forall data printed data' printed',
    level1_tracker.summary_loop portfolio stock_data data printed = Ok (data', printed') ->
    exists more, data' = data ++ more.
Proof.
  induction stock_data as [| info rest IH]; intros data printed data' printed'.
  - intros [= <- <-]. exists []. by rewrite app_nil_r.
  - cbn [level1_tracker.summary_loop].
    destruct (level1_tracker.get_position portfolio info) as [[r | w] | e];
      cbn [mbind result_bind]; [| apply IH | done].
    intros H. apply IH in H as [more ->]. exists (r :: more).
    by rewrite <- app_assoc.
Qed.

Lemma summarize_some_nonempty (stock_data : list (gmap string pyval))
    (df : list level1_tracker.row) (printed : list level1_tracker.warning) :
  level1_tracker.summarize portfolio stock_data = Ok (Some df, printed) -> df <> [].
Proof.
  unfold level1_tracker.summarize.
  destruct (level1_tracker.summary_loop portfolio stock_data [] []) as [[data pr] | e];
    [| done].
  cbn [mbind result_bind mret result_ret]. by destruct data; intros [= <- <-].
Qed.

End console_loop.

(** ** The dashboard loop *)

Section dashboard_loop.

Variable yf_info : string -> result (gmap string pyval).

Lemma realtime_loop_data (portfolio_df : list level2_dashboard.holding) :
  forall results shown shown',
    (level2_dashboard.realtime_loop yf_info portfolio_df results shown).1 =
    (level2_dashboard.realtime_loop yf_info portfolio_df results shown').1.
Proof.
  induction portfolio_df as [| h rest IH]; intros results shown shown'; [done |].
  cbn [level2_dashboard.realtime_loop].
  destruct (level2_dashboard.realtime_position yf_info h); apply IH.
Qed.

Lemma realtime_loop_skip (l1 l2 : list level2_dashboard.holding)
    (h : level2_dashboard.holding) :
  dashboard_skips yf_info h ->
  forall results shown,
    (level2_dashboard.realtime_loop yf_info (l1 ++ h :: l2) results shown).1 =
    (level2_dashboard.realtime_loop yf_info (l1 ++ l2) results shown).1.
Proof.
  intros [w Hw]. induction l1 as [| h' l1 IH]; intros results shown.
  - cbn [app level2_dashboard.realtime_loop]. rewrite Hw. apply realtime_loop_data.
  - cbn [app level2_dashboard.realtime_loop].
    destruct (level2_dashboard.realtime_position yf_info h'); apply IH.
Qed.

Lemma realtime_loop_all_skipped (portfolio_df : list level2_dashboard.holding) :
  Forall (dashboard_skips yf_info) portfolio_df ->
  forall results shown,
    (level2_dashboard.realtime_loop yf_info portfolio_df results shown).1 = results.
Proof.
  induction 1 as [| h rest [w Hw] _ IH]; intros results shown; [done |].
  cbn [level2_dashboard.realtime_loop]. rewrite Hw. apply IH.
Qed.

Lemma realtime_loop_extends (portfolio_df : list level2_dashboard.holding) :
  forall results shown,
    exists more,
      (level2_dashboard.realtime_loop yf_info portfolio_df results shown).1 = results ++ more.
Proof.
  induction portfolio_df as [| h rest IH]; intros results shown.
  - exists []. by rewrite app_nil_r.
  - cbn [level2_dashboard.realtime_loop].
    destruct (level2_dashboard.realtime_position yf_info h) as [r | w]; [| apply IH].
    destruct (IH (results ++ [r]) shown) as [more ->].
    exists (r :: more). by rewrite <- app_assoc.
Qed.

Lemma get_realtime_data_frame (portfolio_df : list level2_dashboard.holding) :
  (level2_dashboard.get_realtime_data yf_info portfolio_df).1 =
  match (level2_dashboard.realtime_loop yf_info portfolio_df [] []).1 with
  | [] => None
  | results => Some results
  end.
Proof.
  unfold level2_dashboard.get_realtime_data.
  destruct portfolio_df as [| h rest]; [done |].
  by destruct (level2_dashboard.realtime_loop yf_info (h :: rest) [] []) as [[| r results] shown].
Qed.

Lemma get_realtime_data_skip (l1 l2 : list level2_dashboard.holding)
    (h : level2_dashboard.holding) :
  dashboard_skips yf_info h ->
  (level2_dashboard.get_realtime_data yf_info (l1 ++ h :: l2)).1 =
  (level2_dashboard.get_realtime_data yf_info (l1 ++ l2)).1.
Proof.
  intros Hskip. rewrite !get_realtime_data_frame. by rewrite realtime_loop_skip.
Qed.

Lemma get_realtime_data_some_nonempty (portfolio_df : list level2_dashboard.holding)
    (df : list level2_dashboard.row) :
  (level2_dashboard.get_realtime_data yf_info portfolio_df).1 = Some df -> df <> [].
Proof.
  rewrite get_realtime_data_frame.
  by destruct (level2_dashboard.realtime_loop yf_info portfolio_df [] []).1; intros [= <-].
Qed.

End dashboard_loop.

(** ** The per-position figures *)

Lemma console_reads_fun (portfolio : level1_tracker.pydict (gmap string Q))
    (info : gmap string pyval) (p p' c c' : pyval) (sh sh' a a' : Q) :
  console_reads portfolio info p c sh a ->
  console_reads portfolio info p' c' sh' a' ->
  p = p' /\ c = c' /\ sh = sh' /\ a = a'.
Proof.
  intros (<- & <- & <- & <-) (<- & <- & <- & <-). done.
Qed.


(** C1: for a valid quote with a previous close different from zero and a
    holding with a positive number of shares, both entry points compute a
    row, and in it the total profit is the current value minus the total
    cost and the daily change in value is the price difference times the
    number of shares. *)
Theorem C1_position_identities
    (yf_info : string -> result (gmap string pyval))
    (portfolio : level1_tracker.pydict (gmap string Q))
    (info : gmap string pyval) (ticker : string)
    (current_price previous_close shares avg_cost : Q) :
  0 < current_price -> ~ previous_close == 0 -> 0 < shares ->
  console_reads portfolio info (PyNum current_price) (PyNum previous_close) shares avg_cost ->
  dashboard_reads yf_info ticker (PyNum current_price) (PyNum previous_close) ->
  (exists r,
     level1_tracker.get_position portfolio info = Ok (level1_tracker.Appended r) /\
     current_value (level1_tracker.metrics r) - total_cost (level1_tracker.metrics r)
       == total_pl (level1_tracker.metrics r) /\
     daily_change_value (level1_tracker.metrics r)
       == (current_price - previous_close) * shares) /\
  (exists r,
     level2_dashboard.realtime_position yf_info
       (level2_dashboard.mkHolding ticker shares avg_cost) = level2_dashboard.Appended r /\
     current_value (level2_dashboard.metrics r) - total_cost (level2_dashboard.metrics r)
       == total_pl (level2_dashboard.metrics r) /\
     daily_change_value (level2_dashboard.metrics r)
       == (current_price - previous_close) * shares).
Proof.
  intros Hp Hc Hsh Hconsole Hdash. split.
  - eexists. split; [apply (console_computed _ _ _ _ _ _ Hconsole); [lra | done | done] |].
    by split.
  - eexists. split; [by apply (dashboard_computed _ _ _ _ _ _ Hdash) |].
    by split.
Qed.

Lemma C1_position_identities_witness :
  (exists r,
     level1_tracker.get_position portfolio_X quote_X = Ok (level1_tracker.Appended r) /\
     current_value (level1_tracker.metrics r) - total_cost (level1_tracker.metrics r)
       == total_pl (level1_tracker.metrics r) /\
     daily_change_value (level1_tracker.metrics r) == (110 - 108) * 10) /\
  (exists r,
     level2_dashboard.realtime_position (fun _ => Ok quote_X)
       (level2_dashboard.mkHolding "X" 10 100) = level2_dashboard.Appended r /\
     current_value (level2_dashboard.metrics r) - total_cost (level2_dashboard.metrics r)
       == total_pl (level2_dashboard.metrics r) /\
     daily_change_value (level2_dashboard.metrics r) == (110 - 108) * 10).
Proof.
  apply (C1_position_identities (fun _ => Ok quote_X) portfolio_X quote_X "X" 110 108 10 100).
  - reflexivity.
  - discriminate.
  - reflexivity.
  - repeat split.
  - exists quote_X. repeat split.
Defined.



(** With a negative average cost the total cost is negative and the guard
    [total_cost > 0] gives a percentage of 0 as well; the data model has no
    such holding. *)
Lemma negative_cost_percentage (ticker : string) (p c sh a : Q) :
  a < 0 -> 0 < sh ->
  total_pl_percent (level2_dashboard.metrics (dashboard_row ticker p c sh a)) = 0 /\
  total_pl_percent (level1_tracker.metrics (console_row (PyStr ticker) p c sh a)) = 0.
Proof.
  intros Ha Hsh. cbn.
  assert (E : Qgtb (a * sh) 0 = false) by (apply Qgtb_false; nra).
  by rewrite E.
Qed.

(** C8: end-to-end scenario 1.  For the holding of 10 shares at an average
    cost of 100 and the quote 110 after a close of 108, both entry points
    compute a current value of 1100, a total cost of 1000, a total profit
    of 100 (10 percent), a daily change of 20 in value and of 50/27
    percent, which is 1.85 to two decimals. *)
Theorem C8_scenario_1
    (yf_info : string -> result (gmap string pyval))
    (portfolio : level1_tracker.pydict (gmap string Q))
    (info : gmap string pyval) (ticker : string) :
  console_reads portfolio info (PyNum 110) (PyNum 108) 10 100 ->
  dashboard_reads yf_info ticker (PyNum 110) (PyNum 108) ->
  (exists r,
     level1_tracker.get_position portfolio info = Ok (level1_tracker.Appended r) /\
     scenario_1_metrics (level1_tracker.metrics r)) /\
  (exists r,
     level2_dashboard.realtime_position yf_info
       (level2_dashboard.mkHolding ticker 10 100) = level2_dashboard.Appended r /\
     scenario_1_metrics (level2_dashboard.metrics r)).
Proof.
  intros Hconsole Hdash. split.
  - eexists. split.
    + apply (console_computed _ _ _ _ _ _ Hconsole); [discriminate | discriminate | reflexivity].
    + repeat split; by vm_compute.
  - eexists. split.
    + apply (dashboard_computed _ _ _ _ _ _ Hdash). discriminate.
    + repeat split; by vm_compute.
Qed.

Lemma C8_scenario_1_witness :
  (exists r,
     level1_tracker.get_position portfolio_X quote_X = Ok (level1_tracker.Appended r) /\
     scenario_1_metrics (level1_tracker.metrics r)) /\
  (exists r,
     level2_dashboard.realtime_position (fun _ => Ok quote_X) holding_X =
       level2_dashboard.Appended r /\
     scenario_1_metrics (level2_dashboard.metrics r)).
Proof.
  apply (C8_scenario_1 (fun _ => Ok quote_X) portfolio_X quote_X "X").
  - repeat split.
  - exists quote_X. repeat split.
Defined.

(** ** A previous close of zero *)

(** C3, as stated, fails: with a current price of 110 and a previous close
    of 0 the console prints the very warning it prints for a quote without
    a price and goes on, and the dashboard shows "Skipping X: Error
    fetching data"; neither lets an error reach its caller. *)
Lemma C3_zero_close_is_skipped :
  ~ (exists e, level1_tracker.get_position portfolio_X quote_X_zero_close = Raise e) /\
  ~ (exists e, level1_tracker.run (fun _ => Ok quote_X_zero_close) portfolio_X =
                 level1_tracker.ErrorOccurred e) /\
  level1_tracker.get_position portfolio_X quote_X_zero_close =
    Ok (level1_tracker.Warned (level1_tracker.CouldNotFetchCompleteData (PyStr "X"))) /\
  level1_tracker.get_position portfolio_X quote_X_zero_close =
    level1_tracker.get_position portfolio_X quote_X_missing /\
  level1_tracker.run (fun _ => Ok quote_X_zero_close) portfolio_X =
    level1_tracker.Displayed
      [level1_tracker.CouldNotFetchCompleteData (PyStr "X")]
      level1_tracker.NoValidStockData /\
  level2_dashboard.realtime_position (fun _ => Ok quote_X_zero_close) holding_X =
    level2_dashboard.Warned
      (level2_dashboard.SkippingErrorFetching "X" ZeroDivisionError).
Proof.
  split; [by intros [e He] |]. split; [by intros [e He] |]. repeat split.
Qed.

(** C3, amended: a quote with a numeric current price and a previous close
    of zero makes no entry point fail and puts no zero or NaN in a row.  The
    console skips it with the warning of the missing-data path.  In the
    dashboard the division raises [ZeroDivisionError] inside the [try]
    block; the handler reports the position as skipped, with the
    error-fetching warning, not the missing-price one. *)
Theorem C3_zero_close_amended
    (yf_info : string -> result (gmap string pyval))
    (portfolio : level1_tracker.pydict (gmap string Q))
    (info : gmap string pyval) (ticker : string) (p c sh a : Q) :
  c == 0 ->
  console_reads portfolio info (PyNum p) (PyNum c) sh a ->
  dashboard_reads yf_info ticker (PyNum p) (PyNum c) ->
  level1_tracker.get_position portfolio info =
    Ok (level1_tracker.Warned
          (level1_tracker.CouldNotFetchCompleteData (dict_get info "symbol"))) /\
  level2_dashboard.try_position yf_info ticker sh a = Raise ZeroDivisionError /\
  level2_dashboard.realtime_position yf_info (level2_dashboard.mkHolding ticker sh a) =
    level2_dashboard.Warned
      (level2_dashboard.SkippingErrorFetching ticker ZeroDivisionError).
Proof.
  intros Hc0 Hconsole Hdash. split; [| split].
  - apply (console_skipped _ _ _ _ _ _ Hconsole). right; left. by apply truthy_zero.
  - destruct Hdash as (ticker_info & Hf & Hp & Hc).
    unfold level2_dashboard.try_position.
    rewrite Hf. cbn [mbind result_bind]. rewrite Hp, Hc.
    cbn [notna andb as_num mbind result_bind].
    by rewrite (py_div_zero _ _ Hc0).
  - by apply (dashboard_zero_close _ _ _ _ _ _ Hdash).
Qed.

Lemma C3_zero_close_amended_witness :
  level1_tracker.get_position portfolio_X quote_X_zero_close =
    Ok (level1_tracker.Warned
          (level1_tracker.CouldNotFetchCompleteData (dict_get quote_X_zero_close "symbol"))) /\
  level2_dashboard.try_position (fun _ => Ok quote_X_zero_close) "X" 10 100 =
    Raise ZeroDivisionError /\
  level2_dashboard.realtime_position (fun _ => Ok quote_X_zero_close)
    (level2_dashboard.mkHolding "X" 10 100) =
    level2_dashboard.Warned
      (level2_dashboard.SkippingErrorFetching "X" ZeroDivisionError).
Proof.
  apply (C3_zero_close_amended (fun _ => Ok quote_X_zero_close) portfolio_X
           quote_X_zero_close "X" 110 0 10 100).
  - reflexivity.
  - repeat split.
  - exists quote_X_zero_close. repeat split.
Defined.

(** C10: in the console a current price or previous close that is present
    but zero is handled as missing data.  The position gets the warning a
    quote without that value gets, nothing is raised, and the returned
    frame is the one obtained without the position. *)
Theorem C10_console_zero_as_missing
    (portfolio : level1_tracker.pydict (gmap string Q))
    (info : gmap string pyval) (p c : pyval) (sh a : Q) :
  console_reads portfolio info p c sh a ->
  (exists x, p = PyNum x /\ x == 0) \/ (exists y, c = PyNum y /\ y == 0) ->
  level1_tracker.get_position portfolio info =
    Ok (level1_tracker.Warned
          (level1_tracker.CouldNotFetchCompleteData (dict_get info "symbol"))) /\
  (forall info0 p0 c0 sh0 a0,
     dict_get info0 "symbol" = dict_get info "symbol" ->
     console_reads portfolio info0 p0 c0 sh0 a0 ->
     p0 = PyNone \/ c0 = PyNone ->
     level1_tracker.get_position portfolio info0 =
     level1_tracker.get_position portfolio info) /\
  (forall e, level1_tracker.get_position portfolio info <> Raise e) /\
  (forall l1 l2,
     fst <$> level1_tracker.summarize portfolio (l1 ++ info :: l2) =
     fst <$> level1_tracker.summarize portfolio (l1 ++ l2)).
Proof.
  intros Hreads Hzero.
  assert (Hskip : level1_tracker.get_position portfolio info =
    Ok (level1_tracker.Warned
          (level1_tracker.CouldNotFetchCompleteData (dict_get info "symbol")))).
  { apply (console_skipped _ _ _ _ _ _ Hreads).
    destruct Hzero as [(x & -> & Hx) | (y & -> & Hy)];
      [left | right; left]; by apply truthy_zero. }
  split; [done |]. split; [| split].
  - intros info0 p0 c0 sh0 a0 Hsym Hreads0 Hnone. rewrite Hskip, <- Hsym.
    apply (console_skipped _ _ _ _ _ _ Hreads0).
    destruct Hnone as [-> | ->]; [by left | by right; left].
  - intros e. by rewrite Hskip.
  - intros l1 l2. apply summarize_skip. by eexists.
Qed.

Lemma C10_console_zero_as_missing_witness :
  level1_tracker.get_position portfolio_X quote_X_zero_close =
    Ok (level1_tracker.Warned
          (level1_tracker.CouldNotFetchCompleteData (dict_get quote_X_zero_close "symbol"))) /\
  level1_tracker.get_position portfolio_X quote_X_missing =
    level1_tracker.get_position portfolio_X quote_X_zero_close.
Proof.
  destruct (C10_console_zero_as_missing portfolio_X quote_X_zero_close
              (PyNum 110) (PyNum 0) 10 100) as (H1 & H2 & _).
  - repeat split.
  - right. exists 0. by split.
  - split; [exact H1 |].
    apply (H2 quote_X_missing PyNone (PyNum 108) 10 100); [done | by repeat split | by left].
Defined.

(** ** No valid data *)

(** C4: when every position is skipped, the console returns [None] and
    prints "No valid stock data was processed." and the dashboard returns
    [None] and stops before the totals; neither produces totals of zero. *)
Theorem C4_no_valid_data
    (yf_info : string -> result (gmap string pyval))
    (portfolio : level1_tracker.pydict (gmap string Q))
    (stock_data : list (gmap string pyval))
    (uploaded_file : option (result (list level2_dashboard.holding))) :
  level1_tracker.fetch_all yf_info (level1_tracker.keys portfolio) = Ok stock_data ->
  Forall (console_skips portfolio) stock_data ->
  Forall (dashboard_skips yf_info) (level2_dashboard.parse_portfolio_input uploaded_file).1 ->
  (exists printed,
     level1_tracker.get_portfolio_summary yf_info portfolio = Ok (None, printed) /\
     level1_tracker.run yf_info portfolio =
       level1_tracker.Displayed printed level1_tracker.NoValidStockData) /\
  (level2_dashboard.get_realtime_data yf_info
     (level2_dashboard.parse_portfolio_input uploaded_file).1).1 = None /\
  (forall df totals,
     (level2_dashboard.app yf_info uploaded_file).1 <> level2_dashboard.Tiles df totals).
Proof.
  intros Hfetch Hconsole Hdash.
  assert (Hnone : (level2_dashboard.get_realtime_data yf_info
            (level2_dashboard.parse_portfolio_input uploaded_file).1).1 = None).
  { rewrite get_realtime_data_frame.
    by rewrite (realtime_loop_all_skipped _ _ Hdash). }
  split; [| split; [done |]].
  - destruct (summary_loop_all_skipped _ _ Hconsole [] []) as [printed Hloop].
    exists printed.
    assert (Hsum : level1_tracker.get_portfolio_summary yf_info portfolio = Ok (None, printed)).
    { unfold level1_tracker.get_portfolio_summary. rewrite Hfetch.
      cbn [mbind result_bind]. unfold level1_tracker.summarize. by rewrite Hloop. }
    split; [done |]. unfold level1_tracker.run. by rewrite Hsum.
  - intros df totals. unfold level2_dashboard.app.
    destruct (level2_dashboard.parse_portfolio_input uploaded_file) as [config shown].
    cbn [fst] in Hnone. destruct config as [| h rest]; [done |].
    destruct (level2_dashboard.get_realtime_data yf_info (h :: rest)) as [realtime_df shown'].
    cbn [fst] in Hnone. by rewrite Hnone.
Qed.

Lemma C4_no_valid_data_witness :
  (exists printed,
     level1_tracker.get_portfolio_summary (fun _ => Ok quote_X_missing) portfolio_X =
       Ok (None, printed) /\
     level1_tracker.run (fun _ => Ok quote_X_missing) portfolio_X =
       level1_tracker.Displayed printed level1_tracker.NoValidStockData) /\
  (level2_dashboard.get_realtime_data (fun _ => Ok quote_X_missing)
     (level2_dashboard.parse_portfolio_input (Some (Ok [holding_X]))).1).1 = None /\
  (forall df totals,
     (level2_dashboard.app (fun _ => Ok quote_X_missing) (Some (Ok [holding_X]))).1 <>
     level2_dashboard.Tiles df totals).
Proof.
  apply (C4_no_valid_data (fun _ => Ok quote_X_missing) portfolio_X [quote_X_missing]
           (Some (Ok [holding_X]))).
  - reflexivity.
  - repeat constructor. by eexists.
  - repeat constructor. by eexists.
Defined.

(** ** Order of the rows *)






(** ** Which holdings are included *)

Lemma dashboard_reads_fun (yf_info : string -> result (gmap string pyval))
    (ticker : string) (p p' c c' : pyval) :
  dashboard_reads yf_info ticker p c ->
  dashboard_reads yf_info ticker p' c' ->
  p = p' /\ c = c'.
Proof.
  intros (ticker_info & Hf & <- & <-) (ticker_info' & Hf' & <- & <-).
  rewrite Hf in Hf'. by injection Hf' as <-.
Qed.

Lemma parse_rows (df : list level2_dashboard.holding) :
  level2_dashboard.parse_portfolio_input (Some (Ok df)) =
  (level2_dashboard.upper_strip_ticker <$>
     filter (fun h => Qgtb (level2_dashboard.h_Shares h) 0 = true) df, []).
Proof.
  done.
Qed.

Lemma parse_dropped (l1 l2 : list level2_dashboard.holding) (h : level2_dashboard.holding) :
  level2_dashboard.h_Shares h <= 0 ->
  level2_dashboard.parse_portfolio_input (Some (Ok (l1 ++ h :: l2))) =
  level2_dashboard.parse_portfolio_input (Some (Ok (l1 ++ l2))).
Proof.
  intros Hsh. apply Qgtb_false in Hsh. rewrite !parse_rows, !filter_app.
  rewrite filter_cons_False; [done | by rewrite Hsh].
Qed.

Lemma parse_kept (l1 l2 : list level2_dashboard.holding) (h : level2_dashboard.holding) :
  0 < level2_dashboard.h_Shares h ->
  (level2_dashboard.parse_portfolio_input (Some (Ok (l1 ++ h :: l2)))).1 =
  (level2_dashboard.parse_portfolio_input (Some (Ok l1))).1 ++
  level2_dashboard.upper_strip_ticker h ::
  (level2_dashboard.parse_portfolio_input (Some (Ok l2))).1.
Proof.
  intros Hsh. apply Qgtb_true in Hsh. rewrite !parse_rows. cbn [fst].
  rewrite filter_app, filter_cons_True by done.
  by rewrite fmap_app, fmap_cons.
Qed.

Lemma parse_app (l1 l2 : list level2_dashboard.holding) :
  (level2_dashboard.parse_portfolio_input (Some (Ok (l1 ++ l2)))).1 =
  (level2_dashboard.parse_portfolio_input (Some (Ok l1))).1 ++
  (level2_dashboard.parse_portfolio_input (Some (Ok l2))).1.
Proof.
  rewrite !parse_rows. cbn [fst]. by rewrite filter_app, fmap_app.
Qed.

Lemma parse_one (h : level2_dashboard.holding) :
  (level2_dashboard.parse_portfolio_input (Some (Ok [h]))).1 =
  if Qgtb (level2_dashboard.h_Shares h) 0
  then [level2_dashboard.upper_strip_ticker h]
  else [].
Proof.
  rewrite parse_rows. cbn [fst]. rewrite filter_cons, filter_nil.
  destruct (Qgtb (level2_dashboard.h_Shares h) 0); by case_decide.
Qed.

Lemma get_realtime_data_single (yf_info : string -> result (gmap string pyval))
    (h : level2_dashboard.holding) :
  (level2_dashboard.get_realtime_data yf_info [h]).1 =
  match level2_dashboard.realtime_position yf_info h with
  | level2_dashboard.Appended r => Some [r]
  | level2_dashboard.Warned _ => None
  end.
Proof.
  rewrite get_realtime_data_frame. cbn [level2_dashboard.realtime_loop].
  by destruct (level2_dashboard.realtime_position yf_info h).
Qed.

Lemma valid_nonzero_present (v : pyval) :
  valid_quote_field v -> (nonzero_number v <-> present v).
Proof.
  intros [-> | (x & -> & Hx)]; split.
  - by intros (x & ? & _).
  - done.
  - done.
  - intros _. exists x. split; [done | lra].
Qed.

Lemma valid_number_present (v : pyval) :
  valid_quote_field v -> (number v <-> present v).
Proof.
  intros [-> | (x & -> & Hx)]; split; try done.
  - by intros (x & ?).
  - intros _. by exists x.
Qed.

Section inclusion.

Variable yf_info : string -> result (gmap string pyval).
Variable portfolio : level1_tracker.pydict (gmap string Q).

(** The console appends a row exactly for a non-zero price, a non-zero
    previous close and a positive number of shares. *)
Lemma console_appended_iff (info : gmap string pyval) (p c : pyval) (sh a : Q) :
  console_reads portfolio info p c sh a ->
  (exists r, level1_tracker.get_position portfolio info = Ok (level1_tracker.Appended r))
    <-> nonzero_number p /\ nonzero_number c /\ 0 < sh.
Proof.
  intros Hconsole. split.
  - intros [r Hr].
    apply console_appended_inv in Hr as (p' & c' & sh' & a' & Hreads' & Hp & Hc & Hsh & _).
    destruct (console_reads_fun _ _ _ _ _ _ _ _ _ _ Hconsole Hreads') as (-> & -> & -> & _).
    split; [by exists p' | split; [by exists c' | done]].
  - intros ((x & -> & Hx) & (y & -> & Hy) & Hsh).
    eexists. by apply (console_computed _ _ _ _ _ _ Hconsole).
Qed.

(** Otherwise it skips the position, provided the quote holds numbers. *)
Lemma console_not_appended_skips (info : gmap string pyval) (p c : pyval) (sh a : Q) :
  console_reads portfolio info p c sh a ->
  not_a_string p -> not_a_string c ->
  ~ (nonzero_number p /\ nonzero_number c /\ 0 < sh) ->
  console_skips portfolio info.
Proof.
  intros Hconsole Hp Hc Hex. eexists. apply (console_skipped _ _ _ _ _ _ Hconsole).
  destruct (truthy p) eqn:Ep; [| by left].
  destruct (truthy c) eqn:Ec; [| by right; left].
  right; right. apply Qnot_lt_le. intros Hsh. apply Hex.
  destruct p as [| x | s]; [done | | by destruct (Hp s)].
  destruct c as [| y | s]; [done | | by destruct (Hc s)].
  apply truthy_num in Ep, Ec. split; [by exists x | split; [by exists y | done]].
Qed.

(** The dashboard, run on an upload of the single row [h], returns a row
    exactly for a price, a non-zero previous close and a positive number
    of shares. *)
Lemma dashboard_appended_iff (h : level2_dashboard.holding) (q d : pyval) :
  dashboard_reads yf_info
    (level2_dashboard.strip (level2_dashboard.upper (level2_dashboard.h_Ticker h))) q d ->
  (exists r,
     (level2_dashboard.get_realtime_data yf_info
        (level2_dashboard.parse_portfolio_input (Some (Ok [h]))).1).1 = Some [r])
    <-> number q /\ nonzero_number d /\ 0 < level2_dashboard.h_Shares h.
Proof.
  intros Hdash. rewrite parse_one.
  destruct (Qgtb (level2_dashboard.h_Shares h) 0) eqn:Hsh.
  - apply Qgtb_true in Hsh. rewrite get_realtime_data_single. split.
    + intros [r Hr].
      destruct (level2_dashboard.realtime_position yf_info
                  (level2_dashboard.upper_strip_ticker h)) as [r' | w] eqn:Hpos; [| done].
      apply dashboard_appended_inv in Hpos as (p' & c' & Hreads' & Hc & _).
      destruct (dashboard_reads_fun _ _ _ _ _ _ Hdash Hreads') as (-> & ->).
      split; [by exists p' | split; [by exists c' | done]].
    + intros ((x & ->) & (y & -> & Hy) & _).
      eexists. unfold level2_dashboard.upper_strip_ticker.
      by rewrite (dashboard_computed _ _ _ _ _ _ Hdash).
  - apply Qgtb_false in Hsh. split; [by intros [r Hr] |].
    intros (_ & _ & Hpos). lra.
Qed.

(** Otherwise the returned frame is the one obtained without the row. *)
Lemma dashboard_not_appended_drops (h : level2_dashboard.holding) (q d : pyval)
    (rows1 rows2 : list level2_dashboard.holding) :
  dashboard_reads yf_info
    (level2_dashboard.strip (level2_dashboard.upper (level2_dashboard.h_Ticker h))) q d ->
  ~ (number q /\ nonzero_number d /\ 0 < level2_dashboard.h_Shares h) ->
  (level2_dashboard.get_realtime_data yf_info
     (level2_dashboard.parse_portfolio_input (Some (Ok (rows1 ++ h :: rows2)))).1).1 =
  (level2_dashboard.get_realtime_data yf_info
     (level2_dashboard.parse_portfolio_input (Some (Ok (rows1 ++ rows2)))).1).1.
Proof.
  intros Hdash Hex. destruct (Qgtb (level2_dashboard.h_Shares h) 0) eqn:Hsh.
  - apply Qgtb_true in Hsh. rewrite (parse_kept _ _ _ Hsh), parse_app.
    apply get_realtime_data_skip.
    destruct (level2_dashboard.realtime_position yf_info
                (level2_dashboard.upper_strip_ticker h)) as [r | w] eqn:Hpos;
      [| by eexists].
    apply dashboard_appended_inv in Hpos as (p' & c' & Hreads' & Hc & _).
    destruct (dashboard_reads_fun _ _ _ _ _ _ Hdash Hreads') as (-> & ->).
    destruct Hex. split; [by exists p' | split; [by exists c' | done]].
  - apply Qgtb_false in Hsh. by rewrite (parse_dropped _ _ _ Hsh).
Qed.

End inclusion.

(** C5, as stated, fails: with a current price of 110, a previous close of
    0 and 10 shares both values of the quote are present and the holding
    has shares, yet neither entry point includes the holding. *)
Lemma C5_present_zero_close_excluded :
  console_reads portfolio_X quote_X_zero_close (PyNum 110) (PyNum 0) 10 100 /\
  dashboard_reads (fun _ => Ok quote_X_zero_close) "X" (PyNum 110) (PyNum 0) /\
  present (PyNum 110) /\ present (PyNum 0) /\ 0 < 10 /\
  ~ (exists r, level1_tracker.get_position portfolio_X quote_X_zero_close =
                 Ok (level1_tracker.Appended r)) /\
  ~ (exists r, level2_dashboard.realtime_position (fun _ => Ok quote_X_zero_close) holding_X =
                 level2_dashboard.Appended r) /\
  level1_tracker.get_position portfolio_X quote_X_zero_close =
    Ok (level1_tracker.Warned (level1_tracker.CouldNotFetchCompleteData (PyStr "X"))) /\
  level1_tracker.summarize portfolio_X [quote_X_zero_close] =
    Ok (None, [level1_tracker.CouldNotFetchCompleteData (PyStr "X")]) /\
  level2_dashboard.get_realtime_data (fun _ => Ok quote_X_zero_close)
    (level2_dashboard.parse_portfolio_input (Some (Ok [holding_X]))).1 =
    (None, [level2_dashboard.SkippingErrorFetching "X" ZeroDivisionError]).
Proof.
  repeat split; try done.
  - by exists quote_X_zero_close.
  - by intros [r Hr].
  - by intros [r Hr].
Qed.

(** C5, amended: a holding is included exactly when it has a positive
    number of shares and its quote has, in the console, a current price and
    a previous close that are present and not zero, and in the dashboard a
    current price that is present and a previous close that is present and
    not zero.  An excluded holding leaves the returned frame, from which
    all totals are summed, as if it were not there; the console reports it
    as skipped.  In the dashboard the holding is a row of the uploaded
    file. *)
Theorem C5_inclusion_amended
    (yf_info : string -> result (gmap string pyval))
    (portfolio : level1_tracker.pydict (gmap string Q))
    (info : gmap string pyval) (p c : pyval) (sh a : Q)
    (h : level2_dashboard.holding) (q d : pyval)
    (stock1 stock2 : list (gmap string pyval))
    (rows1 rows2 : list level2_dashboard.holding) :
  console_reads portfolio info p c sh a ->
  not_a_string p -> not_a_string c ->
  dashboard_reads yf_info
    (level2_dashboard.strip (level2_dashboard.upper (level2_dashboard.h_Ticker h))) q d ->
  ((exists r, level1_tracker.get_position portfolio info = Ok (level1_tracker.Appended r))
     <-> nonzero_number p /\ nonzero_number c /\ 0 < sh) /\
  (~ (nonzero_number p /\ nonzero_number c /\ 0 < sh) ->
     console_skips portfolio info /\
     fst <$> level1_tracker.summarize portfolio (stock1 ++ info :: stock2) =
     fst <$> level1_tracker.summarize portfolio (stock1 ++ stock2)) /\
  ((exists r,
      (level2_dashboard.get_realtime_data yf_info
         (level2_dashboard.parse_portfolio_input (Some (Ok [h]))).1).1 = Some [r])
     <-> number q /\ nonzero_number d /\ 0 < level2_dashboard.h_Shares h) /\
  (~ (number q /\ nonzero_number d /\ 0 < level2_dashboard.h_Shares h) ->
     (level2_dashboard.get_realtime_data yf_info
        (level2_dashboard.parse_portfolio_input (Some (Ok (rows1 ++ h :: rows2)))).1).1 =
     (level2_dashboard.get_realtime_data yf_info
        (level2_dashboard.parse_portfolio_input (Some (Ok (rows1 ++ rows2)))).1).1).
Proof.
  intros Hconsole Hp Hc Hdash. split; [| split; [| split]].
  - exact (console_appended_iff _ _ _ _ _ _ Hconsole).
  - intros Hex.
    pose proof (console_not_appended_skips _ _ _ _ _ _ Hconsole Hp Hc Hex) as Hskip.
    split; [done | by apply summarize_skip].
  - by apply dashboard_appended_iff.
  - by apply dashboard_not_appended_drops.
Qed.

Lemma C5_inclusion_amended_witness :
  (exists r, level1_tracker.get_position portfolio_X quote_X = Ok (level1_tracker.Appended r)) /\
  (exists r,
     (level2_dashboard.get_realtime_data (fun _ => Ok quote_X)
        (level2_dashboard.parse_portfolio_input (Some (Ok [holding_X]))).1).1 = Some [r]).
Proof.
  destruct (C5_inclusion_amended (fun _ => Ok quote_X) portfolio_X quote_X
              (PyNum 110) (PyNum 108) 10 100 holding_X (PyNum 110) (PyNum 108) [] [] [] [])
    as (H1 & _ & H2 & _).
  - repeat split.
  - done.
  - done.
  - exists quote_X. repeat split.
  - split; [apply H1 | apply H2].
    + split; [by exists 110 | split; [by exists 108 | done]].
    + split; [by exists 110 | split; [by exists 108 | done]].
Defined.

(** For a quote whose fields are absent or positive, as the data model has
    them, "present and not zero" is "present". *)
Lemma inclusion_for_valid_quotes
    (yf_info : string -> result (gmap string pyval))
    (portfolio : level1_tracker.pydict (gmap string Q))
    (info : gmap string pyval) (p c : pyval) (sh a : Q)
    (h : level2_dashboard.holding) (q d : pyval) :
  console_reads portfolio info p c sh a ->
  valid_quote_field p -> valid_quote_field c ->
  dashboard_reads yf_info
    (level2_dashboard.strip (level2_dashboard.upper (level2_dashboard.h_Ticker h))) q d ->
  valid_quote_field q -> valid_quote_field d ->
  ((exists r, level1_tracker.get_position portfolio info = Ok (level1_tracker.Appended r))
     <-> present p /\ present c /\ 0 < sh) /\
  ((exists r,
      (level2_dashboard.get_realtime_data yf_info
         (level2_dashboard.parse_portfolio_input (Some (Ok [h]))).1).1 = Some [r])
     <-> present q /\ present d /\ 0 < level2_dashboard.h_Shares h).
Proof.
  intros Hconsole Hp Hc Hdash Hq Hd. split.
  - rewrite (console_appended_iff _ _ _ _ _ _ Hconsole).
    by rewrite (valid_nonzero_present _ Hp), (valid_nonzero_present _ Hc).
  - rewrite (dashboard_appended_iff _ _ _ _ Hdash).
    by rewrite (valid_number_present _ Hq), (valid_nonzero_present _ Hd).
Qed.

(** C7: a holding with zero shares is skipped whatever its quote is.  The
    console prints the warning and appends nothing; the dashboard drops the
    row when it parses the upload, so that the page is the one obtained
    without the row. *)
Theorem C7_zero_shares_skipped
    (yf_info : string -> result (gmap string pyval))
    (portfolio : level1_tracker.pydict (gmap string Q))
    (info : gmap string pyval) (p c : pyval) (sh a : Q)
    (h : level2_dashboard.holding)
    (stock1 stock2 : list (gmap string pyval))
    (rows1 rows2 : list level2_dashboard.holding) :
  console_reads portfolio info p c sh a ->
  sh == 0 ->
  level2_dashboard.h_Shares h == 0 ->
  level1_tracker.get_position portfolio info =
    Ok (level1_tracker.Warned
          (level1_tracker.CouldNotFetchCompleteData (dict_get info "symbol"))) /\
  fst <$> level1_tracker.summarize portfolio (stock1 ++ info :: stock2) =
    fst <$> level1_tracker.summarize portfolio (stock1 ++ stock2) /\
  level2_dashboard.parse_portfolio_input (Some (Ok (rows1 ++ h :: rows2))) =
    level2_dashboard.parse_portfolio_input (Some (Ok (rows1 ++ rows2))) /\
  level2_dashboard.app yf_info (Some (Ok (rows1 ++ h :: rows2))) =
    level2_dashboard.app yf_info (Some (Ok (rows1 ++ rows2))).
Proof.
  intros Hconsole Hsh Hsh'.
  assert (Hskip : level1_tracker.get_position portfolio info =
    Ok (level1_tracker.Warned
          (level1_tracker.CouldNotFetchCompleteData (dict_get info "symbol")))).
  { apply (console_skipped _ _ _ _ _ _ Hconsole). right; right. lra. }
  assert (Hparse : level2_dashboard.parse_portfolio_input (Some (Ok (rows1 ++ h :: rows2))) =
                   level2_dashboard.parse_portfolio_input (Some (Ok (rows1 ++ rows2)))).
  { apply parse_dropped. lra. }
  repeat split; [done | | done |].
  - apply summarize_skip. by eexists.
  - unfold level2_dashboard.app. by rewrite Hparse.
Qed.

Lemma C7_zero_shares_skipped_witness :
  level1_tracker.get_position [ ("X", {[ "shares" := 0; "avg_cost" := 100 ]}) ] quote_X =
    Ok (level1_tracker.Warned
          (level1_tracker.CouldNotFetchCompleteData (dict_get quote_X "symbol"))) /\
  level2_dashboard.app (fun _ => Ok quote_X)
    (Some (Ok ([holding_X] ++ level2_dashboard.mkHolding "Y" 0 50 :: []))) =
  level2_dashboard.app (fun _ => Ok quote_X) (Some (Ok ([holding_X] ++ []))).
Proof.
  destruct (C7_zero_shares_skipped (fun _ => Ok quote_X)
              [ ("X", {[ "shares" := 0; "avg_cost" := 100 ]}) ] quote_X
              (PyNum 110) (PyNum 108) 0 100 (level2_dashboard.mkHolding "Y" 0 50)
              [] [] [holding_X] []) as (H1 & _ & _ & H2).
  - repeat split.
  - reflexivity.
  - reflexivity.
  - by split.
Defined.

(** ** The two fallback orders *)

Lemma metrics_same_price (ticker1 : pyval) (ticker2 : string) (p p' c sh a : Q) :
  p == p' ->
  PositionMetrics_eq (level1_tracker.metrics (console_row ticker1 p' c sh a))
                     (level2_dashboard.metrics (dashboard_row ticker2 p c sh a)).
Proof.
  intros Hp. unfold PositionMetrics_eq; cbn.
  repeat split; try (by rewrite Hp).
  destruct (Qgtb (a * sh) 0); [by rewrite Hp | done].
Qed.

(** C9: when ['currentPrice'] and ['regularMarketPrice'] hold the same
    positive value and ['previousClose'] is positive, the console and the
    dashboard compute the same figures for a holding with a positive number
    of shares, although they prefer the two keys in opposite orders. *)
Theorem C9_equal_prices_equal_metrics
    (yf_info : string -> result (gmap string pyval))
    (portfolio : level1_tracker.pydict (gmap string Q))
    (info : gmap string pyval) (ticker : string) (p p' c sh a : Q) :
  info !! "currentPrice" = Some (PyNum p) ->
  info !! "regularMarketPrice" = Some (PyNum p') ->
  p == p' -> 0 < p ->
  info !! "previousClose" = Some (PyNum c) -> 0 < c ->
  yf_info ticker = Ok info ->
  default 0 (level1_tracker.portfolio_get portfolio (dict_get info "symbol") !! "shares") = sh ->
  default 0 (level1_tracker.portfolio_get portfolio (dict_get info "symbol") !! "avg_cost") = a ->
  0 < sh ->
  exists r1 r2,
    level1_tracker.get_position portfolio info = Ok (level1_tracker.Appended r1) /\
    level2_dashboard.realtime_position yf_info (level2_dashboard.mkHolding ticker sh a) =
      level2_dashboard.Appended r2 /\
    PositionMetrics_eq (level1_tracker.metrics r1) (level2_dashboard.metrics r2).
Proof.
  intros Hcur Hreg Hpp Hp Hprev Hc Hf Hsh Ha Hpos.
  assert (Hconsole : console_reads portfolio info (PyNum p') (PyNum c) sh a).
  { repeat split; try done.
    - unfold level1_tracker.current_price_of, dict_get_default. by rewrite Hreg.
    - unfold dict_get. by rewrite Hprev. }
  assert (Hdash : dashboard_reads yf_info ticker (PyNum p) (PyNum c)).
  { exists info. repeat split; try done.
    - unfold level2_dashboard.current_price_of, dict_get, py_or. rewrite Hcur. cbn [from_option id].
      assert (Ht : truthy (PyNum p) = true) by (apply truthy_num; lra).
      by rewrite Ht.
    - unfold dict_get. by rewrite Hprev. }
  eexists _, _. split; [| split].
  - apply (console_computed _ _ _ _ _ _ Hconsole); [lra | lra | done].
  - apply (dashboard_computed _ _ _ _ _ _ Hdash). lra.
  - by apply metrics_same_price.
Qed.

Lemma C9_equal_prices_equal_metrics_witness :
  exists r1 r2,
    level1_tracker.get_position portfolio_X quote_X = Ok (level1_tracker.Appended r1) /\
    level2_dashboard.realtime_position (fun _ => Ok quote_X)
      (level2_dashboard.mkHolding "X" 10 100) = level2_dashboard.Appended r2 /\
    PositionMetrics_eq (level1_tracker.metrics r1) (level2_dashboard.metrics r2).
Proof.
  apply (C9_equal_prices_equal_metrics (fun _ => Ok quote_X) portfolio_X quote_X "X"
           110 110 108 10 100); reflexivity.
Defined.

(** When the two keys disagree the entry points read different prices:
    the console takes ['regularMarketPrice'], the dashboard
    ['currentPrice']. *)
Lemma fallback_orders_differ :
  level1_tracker.current_price_of quote_X_two_prices = PyNum 111 /\
  level2_dashboard.current_price_of quote_X_two_prices = PyNum 110.
Proof.
  by split.
Qed.

(** The dashboard's loop body has no guard on the number of shares of its
    own: given a row with zero shares it appends a row of zeros.  Such a
    row never reaches it, [parse_portfolio_input] keeps only rows with
    positive shares. *)
Lemma realtime_position_zero_shares :
  level2_dashboard.realtime_position (fun _ => Ok quote_X)
    (level2_dashboard.mkHolding "X" 0 100) =
  level2_dashboard.Appended (dashboard_row "X" 110 108 0 100).
Proof.
  done.
Qed.

Lemma parse_keeps_positive_shares
    (uploaded_file : option (result (list level2_dashboard.holding))) :
  Forall (fun h => 0 < level2_dashboard.h_Shares h)
    (level2_dashboard.parse_portfolio_input uploaded_file).1.
Proof.
  destruct uploaded_file as [[df | e] |]; [| done | done].
  rewrite parse_rows. cbn [fst]. apply Forall_fmap, Forall_forall.
  intros h Hin. apply list_elem_of_filter in Hin as [Hsh _].
  by apply Qgtb_true in Hsh.
Qed.

(** * More of the two files *)

(** ** What the console loop keeps *)

Section console_frame.

Variable portfolio : level1_tracker.pydict (gmap string Q).

Lemma console_appended_row_of (info : gmap string pyval) (r : level1_tracker.row) :
  level1_tracker.get_position portfolio info = Ok (level1_tracker.Appended r) ->
  console_row_of portfolio r /\ level1_tracker.Ticker r = dict_get info "symbol".
Proof.
  intros Hr.
  apply console_appended_inv in Hr as (p & c & sh & a & Hreads & Hp & Hc & Hsh & ->).
  destruct Hreads as (_ & _ & Hshares & Ha). split; [| done].
  destruct (dict_get info "symbol") as [| x | s];
    cbn [level1_tracker.portfolio_get] in Hshares, Ha;
    [rewrite lookup_empty in Hshares; cbn in Hshares; subst sh; lra
    | rewrite lookup_empty in Hshares; cbn in Hshares; subst sh; lra |].
  destruct (level1_tracker.lookup_item portfolio s) as [hd |] eqn:Hlook;
    cbn [from_option id] in Hshares, Ha; cycle 1.
  { rewrite lookup_empty in Hshares; cbn in Hshares; subst sh; lra. }
  destruct (hd !! "shares") as [x |] eqn:Hx; cycle 1.
  { cbn in Hshares; subst sh; lra. }
  cbn in Hshares. subst x a. exists s, hd, p, c. by repeat split.
Qed.

Lemma summary_loop_Forall (P : level1_tracker.row -> Prop)
    (stock_data : list (gmap string pyval)) :
  (forall info r,
     info ∈ stock_data ->
     level1_tracker.get_position portfolio info = Ok (level1_tracker.Appended r) -> P r) ->
  forall data printed data' printed',
    Forall P data ->
    level1_tracker.summary_loop portfolio stock_data data printed = Ok (data', printed') ->
    Forall P data'.
Proof.
  induction stock_data as [| info rest IH]; intros HP data printed data' printed' Hdata.
  - by intros [= <- <-].
  - cbn [level1_tracker.summary_loop].
    destruct (level1_tracker.get_position portfolio info) as [[r | w] | e] eqn:Hpos;
      cbn [mbind result_bind]; [| | done].
    + apply IH; [intros ? ? ?; apply HP; by right |].
      apply Forall_app. split; [done |]. constructor; [| done].
      apply (HP info); [by left | done].
    + apply IH; [intros ? ? ?; apply HP; by right | done].
Qed.

Lemma summary_loop_length (stock_data : list (gmap string pyval)) :
  forall data printed data' printed',
    level1_tracker.summary_loop portfolio stock_data data printed = Ok (data', printed') ->
    (length data' + length printed' =
     length data + length printed + length stock_data)%nat.
Proof.
  induction stock_data as [| info rest IH]; intros data printed data' printed'.
  - intros [= <- <-]. cbn. lia.
  - cbn [level1_tracker.summary_loop].
    destruct (level1_tracker.get_position portfolio info) as [[r | w] | e];
      cbn [mbind result_bind]; [| | done].
    + intros H. apply IH in H. rewrite length_app in H. cbn in *. lia.
    + intros H. apply IH in H. rewrite length_app in H. cbn in *. lia.
Qed.

Lemma summary_loop_tickers (stock_data : list (gmap string pyval)) :
  forall data printed data' printed',
    level1_tracker.summary_loop portfolio stock_data data printed = Ok (data', printed') ->
    exists more,
      data' = data ++ more /\
      sublist (level1_tracker.Ticker <$> more)
              ((fun info => dict_get info "symbol") <$> stock_data).
Proof.
  induction stock_data as [| info rest IH]; intros data printed data' printed'.
  - intros [= <- <-]. exists []. by rewrite app_nil_r.
  - cbn [level1_tracker.summary_loop].
    destruct (level1_tracker.get_position portfolio info) as [[r | w] | e] eqn:Hpos;
      cbn [mbind result_bind]; [| | done].
    + intros H. apply IH in H as (more & -> & Hsub).
      exists (r :: more). split; [by rewrite <- app_assoc |].
      rewrite !fmap_cons.
      apply console_appended_row_of in Hpos as [_ ->]. by apply sublist_skip.
    + intros H. apply IH in H as (more & -> & Hsub).
      exists more. split; [done |]. rewrite fmap_cons. by apply sublist_cons.
Qed.

(** On quotes made of numbers and [None] the loop does not raise. *)
Lemma summary_loop_no_raise (stock_data : list (gmap string pyval)) :
  Forall numeric_quote stock_data ->
  forall data printed,
    exists data' printed',
      level1_tracker.summary_loop portfolio stock_data data printed = Ok (data', printed').
Proof.
  induction 1 as [| info rest [Hp Hc] _ IH]; intros data printed.
  - by eexists _, _.
  - cbn [level1_tracker.summary_loop].
    destruct (level1_tracker.get_position portfolio info) as [[r | w] | e] eqn:Hpos;
      cbn [mbind result_bind]; [apply IH | apply IH |].
    by destruct (console_no_raise portfolio info _ _ _ _ e
                   (conj eq_refl (conj eq_refl (conj eq_refl eq_refl))) Hp Hc).
Qed.

End console_frame.

Section console_fetch.

Variable yf_info : string -> result (gmap string pyval).

Lemma fetch_all_length (tickers : list string) (stock_data : list (gmap string pyval)) :
  level1_tracker.fetch_all yf_info tickers = Ok stock_data ->
  length stock_data = length tickers.
Proof.
  revert stock_data. induction tickers as [| t rest IH]; intros stock_data.
  - by intros [= <-].
  - cbn [level1_tracker.fetch_all].
    destruct (yf_info t) as [info | e]; cbn [mbind result_bind]; [| done].
    destruct (level1_tracker.fetch_all yf_info rest) as [infos | e];
      cbn [mbind result_bind mret result_ret]; [| done].
    intros [= <-]. cbn. by rewrite (IH infos).
Qed.

(** The fetch stops at the first ticker whose request raises. *)
Lemma fetch_all_first_error (ts1 ts2 : list string) (t : string) (e : exn) :
  Forall (fun t' => exists info, yf_info t' = Ok info) ts1 ->
  yf_info t = Raise e ->
  level1_tracker.fetch_all yf_info (ts1 ++ t :: ts2) = Raise e.
Proof.
  intros Hok Hraise. induction Hok as [| t' ts1 [info Hinfo] _ IH].
  - cbn [app level1_tracker.fetch_all]. by rewrite Hraise.
  - cbn [app level1_tracker.fetch_all]. rewrite Hinfo, IH. done.
Qed.

End console_fetch.

(** ** What the dashboard loop keeps *)

Section dashboard_frame.

Variable yf_info : string -> result (gmap string pyval).

Lemma dashboard_fetch_error (h : level2_dashboard.holding) (e : exn) :
  yf_info (level2_dashboard.h_Ticker h) = Raise e ->
  level2_dashboard.realtime_position yf_info h =
    level2_dashboard.Warned
      (level2_dashboard.SkippingErrorFetching (level2_dashboard.h_Ticker h) e).
Proof.
  intros Hf. unfold level2_dashboard.realtime_position, level2_dashboard.try_position.
  by rewrite Hf.
Qed.

Lemma realtime_loop_Forall (P : level2_dashboard.row -> Prop)
    (portfolio_df : list level2_dashboard.holding) :
  (forall h r,
     h ∈ portfolio_df ->
     level2_dashboard.realtime_position yf_info h = level2_dashboard.Appended r -> P r) ->
  forall results shown,
    Forall P results ->
    Forall P (level2_dashboard.realtime_loop yf_info portfolio_df results shown).1.
Proof.
  induction portfolio_df as [| h rest IH]; intros HP results shown Hres; [done |].
  cbn [level2_dashboard.realtime_loop].
  destruct (level2_dashboard.realtime_position yf_info h) as [r | w] eqn:Hpos.
  - apply IH; [intros ? ? ?; apply HP; by right |].
    apply Forall_app. split; [done |]. constructor; [| done].
    apply (HP h); [by left | done].
  - apply IH; [intros ? ? ?; apply HP; by right | done].
Qed.

Lemma realtime_loop_length (portfolio_df : list level2_dashboard.holding) :
  forall results shown,
    (length (level2_dashboard.realtime_loop yf_info portfolio_df results shown).1 +
     length (level2_dashboard.realtime_loop yf_info portfolio_df results shown).2 =
     length results + length shown + length portfolio_df)%nat.
Proof.
  induction portfolio_df as [| h rest IH]; intros results shown.
  - cbn. lia.
  - cbn [level2_dashboard.realtime_loop].
    destruct (level2_dashboard.realtime_position yf_info h) as [r | w];
      rewrite IH, length_app; cbn; lia.
Qed.

Lemma realtime_loop_tickers (portfolio_df : list level2_dashboard.holding) :
  forall results shown,
    exists more,
      (level2_dashboard.realtime_loop yf_info portfolio_df results shown).1 = results ++ more /\
      sublist (level2_dashboard.tickers more) (level2_dashboard.h_Ticker <$> portfolio_df).
Proof.
  unfold level2_dashboard.tickers.
  induction portfolio_df as [| h rest IH]; intros results shown.
  - exists []. by rewrite app_nil_r.
  - cbn [level2_dashboard.realtime_loop].
    destruct (level2_dashboard.realtime_position yf_info h) as [r | w] eqn:Hpos.
    + destruct (IH (results ++ [r]) shown) as (more & -> & Hsub).
      exists (r :: more). split; [by rewrite <- app_assoc |].
      rewrite !fmap_cons.
      apply dashboard_appended_inv in Hpos as (p & c & _ & _ & ->).
      by apply sublist_skip.
    + destruct (IH results (shown ++ [w])) as (more & -> & Hsub).
      exists more. split; [done |]. rewrite fmap_cons. by apply sublist_cons.
Qed.

(** The frame and the messages of [get_realtime_data], from the loop. *)
Lemma get_realtime_data_rows (portfolio_df : list level2_dashboard.holding) :
  default [] (level2_dashboard.get_realtime_data yf_info portfolio_df).1 =
    (level2_dashboard.realtime_loop yf_info portfolio_df [] []).1 /\
  (level2_dashboard.get_realtime_data yf_info portfolio_df).2 =
    (level2_dashboard.realtime_loop yf_info portfolio_df [] []).2.
Proof.
  unfold level2_dashboard.get_realtime_data.
  destruct portfolio_df as [| h rest]; [done |].
  by destruct (level2_dashboard.realtime_loop yf_info (h :: rest) [] []) as [[| r results] shown].
Qed.

Lemma dashboard_appended_row_of (uploaded : list level2_dashboard.holding)
    (h : level2_dashboard.holding) (r : level2_dashboard.row) :
  h ∈ (level2_dashboard.parse_portfolio_input (Some (Ok uploaded))).1 ->
  level2_dashboard.realtime_position yf_info h = level2_dashboard.Appended r ->
  dashboard_row_of uploaded r.
Proof.
  rewrite parse_rows. cbn [fst]. intros Hin Hpos.
  apply list_elem_of_fmap in Hin as (h0 & -> & Hin).
  apply list_elem_of_filter in Hin as [Hsh Hin]. apply Qgtb_true in Hsh.
  apply dashboard_appended_inv in Hpos as (p & c & _ & Hc & ->).
  by exists h0, p, c.
Qed.

End dashboard_frame.

Section dashboard_messages.

Variable yf_info : string -> result (gmap string pyval).

Lemma realtime_loop_shown (portfolio_df : list level2_dashboard.holding)
    (h : level2_dashboard.holding) (w : level2_dashboard.message) :
  h ∈ portfolio_df ->
  level2_dashboard.realtime_position yf_info h = level2_dashboard.Warned w ->
  forall results shown,
    w ∈ (level2_dashboard.realtime_loop yf_info portfolio_df results shown).2.
Proof.
  intros Hin Hw. induction portfolio_df as [| h' rest IH]; intros results shown.
  - by apply elem_of_nil in Hin.
  - cbn [level2_dashboard.realtime_loop].
    apply elem_of_cons in Hin as [<- | Hin].
    + rewrite Hw.
      assert (Hkeep : forall l res sh, w ∈ sh ->
                w ∈ (level2_dashboard.realtime_loop yf_info l res sh).2).
      { clear. induction l as [| x l IHl]; intros res sh Hsh; [done |].
        cbn [level2_dashboard.realtime_loop].
        destruct (level2_dashboard.realtime_position yf_info x);
          apply IHl; [done | set_solver]. }
      apply Hkeep. set_solver.
    + destruct (level2_dashboard.realtime_position yf_info h'); by apply IH.
Qed.

End dashboard_messages.

(** ** Every quote is accounted for *)

(** X1: the console gives every ticker of the portfolio exactly one row or
    one warning: the rows of the returned frame and the printed warnings
    add up to the number of tickers. *)
Theorem X1_console_row_or_warning
    (yf_info : string -> result (gmap string pyval))
    (portfolio : level1_tracker.pydict (gmap string Q))
    (frame : option (list level1_tracker.row))
    (printed : list level1_tracker.warning) :
  level1_tracker.get_portfolio_summary yf_info portfolio = Ok (frame, printed) ->
  (length (default [] frame) + length printed = length (level1_tracker.keys portfolio))%nat.
Proof.
  unfold level1_tracker.get_portfolio_summary, level1_tracker.summarize.
  destruct (level1_tracker.fetch_all yf_info (level1_tracker.keys portfolio))
    as [stock_data | e] eqn:Hfetch; cbn [mbind result_bind]; [| done].
  destruct (level1_tracker.summary_loop portfolio stock_data [] [])
    as [[data pr] | e] eqn:Hloop; cbn [mbind result_bind mret result_ret]; [| done].
  intros [= <- <-]. apply summary_loop_length in Hloop.
  apply fetch_all_length in Hfetch. rewrite <- Hfetch.
  destruct data; cbn in *; lia.
Qed.

Lemma X1_console_row_or_warning_witness :
  (length (default [] (Some [console_row (PyStr "X") 110 108 10 100])) +
   length [level1_tracker.CouldNotFetchCompleteData (PyStr "Y")] =
   length (level1_tracker.keys portfolio_XY))%nat.
Proof.
  apply (X1_console_row_or_warning yf_sample portfolio_XY). reflexivity.
Defined.

(** X2: the dashboard gives every row of the holdings frame exactly one
    result row or one warning. *)
Theorem X2_dashboard_row_or_warning
    (yf_info : string -> result (gmap string pyval))
    (portfolio_df : list level2_dashboard.holding) :
  (length (default [] (level2_dashboard.get_realtime_data yf_info portfolio_df).1) +
   length (level2_dashboard.get_realtime_data yf_info portfolio_df).2 =
   length portfolio_df)%nat.
Proof.
  destruct (get_realtime_data_rows yf_info portfolio_df) as [-> ->].
  by rewrite realtime_loop_length.
Qed.

(** ** Where the rows come from *)

(** X3: every row of the frame the console returns belongs to a holding of
    the portfolio: its ticker is a key, its shares are that holding's and
    positive, its price and previous close are not zero.  The rows follow
    the order of the fetched quotes. *)
Theorem X3_console_rows_of_holdings
    (yf_info : string -> result (gmap string pyval))
    (portfolio : level1_tracker.pydict (gmap string Q))
    (frame : option (list level1_tracker.row))
    (printed : list level1_tracker.warning) :
  level1_tracker.get_portfolio_summary yf_info portfolio = Ok (frame, printed) ->
  Forall (console_row_of portfolio) (default [] frame) /\
  exists stock_data,
    level1_tracker.fetch_all yf_info (level1_tracker.keys portfolio) = Ok stock_data /\
    sublist (level1_tracker.Ticker <$> default [] frame)
            ((fun info => dict_get info "symbol") <$> stock_data).
Proof.
  unfold level1_tracker.get_portfolio_summary, level1_tracker.summarize.
  destruct (level1_tracker.fetch_all yf_info (level1_tracker.keys portfolio))
    as [stock_data | e] eqn:Hfetch; cbn [mbind result_bind]; [| done].
  destruct (level1_tracker.summary_loop portfolio stock_data [] [])
    as [[data pr] | e] eqn:Hloop; cbn [mbind result_bind mret result_ret]; [| done].
  intros [= <- <-].
  assert (Hdata : default [] (match data with [] => None | _ => Some data end) = data)
    by (by destruct data).
  rewrite Hdata. split.
  - eapply summary_loop_Forall; [| | exact Hloop]; [| done].
    intros info r _ Hr. by apply (console_appended_row_of _ info).
  - exists stock_data. split; [done |].
    by apply summary_loop_tickers in Hloop as (more & -> & Hsub).
Qed.

Lemma X3_console_rows_of_holdings_witness :
  Forall (console_row_of portfolio_XY)
    (default [] (Some [console_row (PyStr "X") 110 108 10 100])) /\
  exists stock_data,
    level1_tracker.fetch_all yf_sample (level1_tracker.keys portfolio_XY) = Ok stock_data /\
    sublist (level1_tracker.Ticker <$> default [] (Some [console_row (PyStr "X") 110 108 10 100]))
            ((fun info => dict_get info "symbol") <$> stock_data).
Proof.
  apply (X3_console_rows_of_holdings yf_sample portfolio_XY _
           [level1_tracker.CouldNotFetchCompleteData (PyStr "Y")]).
  reflexivity.
Defined.

(** X4: every row of the frame the dashboard computes from an upload
    belongs to an uploaded row with positive shares, carries its ticker in
    upper case and stripped, and has a previous close that is not zero.
    The rows follow the order of the parsed holdings. *)
Theorem X4_dashboard_rows_of_upload
    (yf_info : string -> result (gmap string pyval))
    (uploaded : list level2_dashboard.holding) :
  Forall (dashboard_row_of uploaded)
    (default [] (level2_dashboard.get_realtime_data yf_info
                   (level2_dashboard.parse_portfolio_input (Some (Ok uploaded))).1).1) /\
  sublist
    (level2_dashboard.tickers
       (default [] (level2_dashboard.get_realtime_data yf_info
                      (level2_dashboard.parse_portfolio_input (Some (Ok uploaded))).1).1))
    (level2_dashboard.h_Ticker <$>
       (level2_dashboard.parse_portfolio_input (Some (Ok uploaded))).1).
Proof.
  destruct (get_realtime_data_rows yf_info
              (level2_dashboard.parse_portfolio_input (Some (Ok uploaded))).1) as [-> _].
  split.
  - apply realtime_loop_Forall; [| done].
    intros h r Hin Hr. by apply (dashboard_appended_row_of yf_info uploaded h).
  - by destruct (realtime_loop_tickers yf_info
                   (level2_dashboard.parse_portfolio_input (Some (Ok uploaded))).1 [] [])
      as (more & -> & Hsub).
Qed.

(** ** A request that fails *)

(** X5: in the console all quotes are fetched before any is looked at, so
    one failing request ends the run: the exception of the first ticker
    whose request raises is the one reported, and nothing is displayed. *)
Theorem X5_console_fetch_error_ends_run
    (yf_info : string -> result (gmap string pyval))
    (portfolio : level1_tracker.pydict (gmap string Q))
    (ts1 ts2 : list string) (t : string) (e : exn) :
  level1_tracker.keys portfolio = ts1 ++ t :: ts2 ->
  Forall (fun t' => exists info, yf_info t' = Ok info) ts1 ->
  yf_info t = Raise e ->
  level1_tracker.run yf_info portfolio = level1_tracker.ErrorOccurred e.
Proof.
  intros Hkeys Hok Hraise.
  unfold level1_tracker.run, level1_tracker.get_portfolio_summary.
  by rewrite Hkeys, (fetch_all_first_error _ _ _ _ _ Hok Hraise).
Qed.

Lemma X5_console_fetch_error_ends_run_witness :
  level1_tracker.run yf_sample portfolio_XZ =
  level1_tracker.ErrorOccurred (FetchError "Not Found").
Proof.
  apply (X5_console_fetch_error_ends_run yf_sample portfolio_XZ ["X"] [] "Z").
  - reflexivity.
  - repeat constructor. by exists quote_X.
  - reflexivity.
Defined.

(** X6: in the dashboard a failing request costs only its own holding:
    the holding gets the "Error fetching data" warning with the exception,
    and the returned frame is the one obtained without the holding. *)
Theorem X6_dashboard_fetch_error_is_local
    (yf_info : string -> result (gmap string pyval))
    (l1 l2 : list level2_dashboard.holding) (h : level2_dashboard.holding) (e : exn) :
  yf_info (level2_dashboard.h_Ticker h) = Raise e ->
  (level2_dashboard.get_realtime_data yf_info (l1 ++ h :: l2)).1 =
    (level2_dashboard.get_realtime_data yf_info (l1 ++ l2)).1 /\
  level2_dashboard.SkippingErrorFetching (level2_dashboard.h_Ticker h) e ∈
    (level2_dashboard.get_realtime_data yf_info (l1 ++ h :: l2)).2.
Proof.
  intros Hraise. pose proof (dashboard_fetch_error yf_info h e Hraise) as Hw. split.
  - apply get_realtime_data_skip. by eexists.
  - destruct (get_realtime_data_rows yf_info (l1 ++ h :: l2)) as [_ ->].
    apply (realtime_loop_shown yf_info _ h); [set_solver | done].
Qed.

Lemma X6_dashboard_fetch_error_is_local_witness :
  (level2_dashboard.get_realtime_data yf_sample ([holding_X] ++ holding_Z :: [])).1 =
    (level2_dashboard.get_realtime_data yf_sample ([holding_X] ++ [])).1 /\
  level2_dashboard.SkippingErrorFetching "Z" (FetchError "Not Found") ∈
    (level2_dashboard.get_realtime_data yf_sample ([holding_X] ++ holding_Z :: [])).2.
Proof.
  apply (X6_dashboard_fetch_error_is_local yf_sample [holding_X] [] holding_Z).
  reflexivity.
Defined.

(** X7: when every request succeeds and the price fields of the quotes hold
    numbers or [None], the console run ends with a display, never with
    "An error occurred during execution". *)
Theorem X7_console_numeric_quotes_display
    (yf_info : string -> result (gmap string pyval))
    (portfolio : level1_tracker.pydict (gmap string Q))
    (stock_data : list (gmap string pyval)) :
  level1_tracker.fetch_all yf_info (level1_tracker.keys portfolio) = Ok stock_data ->
  Forall numeric_quote stock_data ->
  exists printed shown,
    level1_tracker.run yf_info portfolio = level1_tracker.Displayed printed shown.
Proof.
  intros Hfetch Hnum.
  destruct (summary_loop_no_raise portfolio stock_data Hnum [] []) as (data & pr & Hloop).
  unfold level1_tracker.run, level1_tracker.get_portfolio_summary, level1_tracker.summarize.
  rewrite Hfetch. cbn [mbind result_bind]. rewrite Hloop.
  cbn [mbind result_bind mret result_ret]. by eexists _, _.
Qed.

Lemma X7_console_numeric_quotes_display_witness :
  exists printed shown,
    level1_tracker.run yf_sample portfolio_XY = level1_tracker.Displayed printed shown.
Proof.
  apply (X7_console_numeric_quotes_display yf_sample portfolio_XY [quote_X; quote_Y_missing]).
  - reflexivity.
  - repeat constructor; by intros s.
Defined.

(** X8: the console finds the holding under the ['symbol'] of the quote,
    not under the ticker it asked for.  A quote whose symbol is missing,
    [None] or not a key of the portfolio is skipped whatever its prices
    are. *)
Theorem X8_console_unknown_symbol_skipped
    (portfolio : level1_tracker.pydict (gmap string Q))
    (info : gmap string pyval) :
  (forall s, dict_get info "symbol" = PyStr s ->
             level1_tracker.lookup_item portfolio s = None) ->
  level1_tracker.get_position portfolio info =
    Ok (level1_tracker.Warned
          (level1_tracker.CouldNotFetchCompleteData (dict_get info "symbol"))).
Proof.
  intros Hsym.
  assert (Hempty : level1_tracker.portfolio_get portfolio (dict_get info "symbol") = ∅).
  { destruct (dict_get info "symbol") as [| x | s] eqn:E; [done | done |].
    cbn [level1_tracker.portfolio_get]. by rewrite (Hsym s). }
  eapply (console_skipped portfolio info _ _ 0 0).
  - repeat split; by rewrite Hempty, lookup_empty.
  - right; right. lra.
Qed.

Lemma X8_console_unknown_symbol_skipped_witness :
  level1_tracker.get_position level1_tracker.PORTFOLIO quote_X =
    Ok (level1_tracker.Warned
          (level1_tracker.CouldNotFetchCompleteData (dict_get quote_X "symbol"))).
Proof.
  apply X8_console_unknown_symbol_skipped.
  intros s Hs. vm_compute in Hs. injection Hs as <-. reflexivity.
Defined.

(** ** Column sums *)

Lemma col_sum_nonneg {A} (f : A -> Q) (l : list A) :
  Forall (fun r => 0 <= f r) l -> 0 <= col_sum f l.
Proof.
  unfold col_sum. induction 1 as [| r l Hr _ IH]; cbn [foldr]; lra.
Qed.

Lemma col_sum_pos {A} (w : A -> Q) (l : list A) :
  l <> [] -> Forall (fun r => 0 < w r) l -> 0 < col_sum w l.
Proof.
  intros Hne Hw. destruct Hw as [| r l Hr Hl]; [done |].
  assert (H0 : 0 <= col_sum w l).
  { clear Hne Hr. unfold col_sum. induction Hl as [| r' l Hr' _ IH]; cbn [foldr]; lra. }
  unfold col_sum in *. cbn [foldr]. lra.
Qed.

Lemma Qdiv_percent_nonneg (x c : Q) : 0 < c -> (0 <= x <-> 0 <= x / c * 100).
Proof.
  intros Hc.
  assert (Heq : x / c * 100 == 100 * x / c) by (field; lra).
  rewrite Heq. split.
  - intros Hx. apply Qle_shift_div_l; [done | lra].
  - intros Hx. destruct (Qlt_le_dec x 0) as [Hneg | Hpos]; [| done].
    assert (H : 100 * x / c <= (-1) * / c * 0 + 100 * x / c) by lra.
    assert (Hlt : 100 * x / c < 0).
    { apply Qlt_shift_div_r; [done | lra]. }
    lra.
Qed.

Lemma Qgeb_true (x y : Q) : Qgeb x y = true <-> y <= x.
Proof.
  unfold Qgeb. apply Qle_bool_iff.
Qed.

(** ** Facts about one computed row *)

Lemma console_row_facts (ticker : pyval) (p c sh a : Q) :
  ~ c == 0 ->
  let r := console_row ticker p c sh a in
  level1_tracker.Total_PL_USD r ==
    level1_tracker.Current_Value r - level1_tracker.Total_Cost r /\
  level1_tracker.Daily_Change_USD r ==
    level1_tracker.Current_Value r - level1_tracker.Prev_Close r * level1_tracker.Shares r /\
  100 * level1_tracker.Daily_Change_USD r ==
    level1_tracker.Daily_Pct_Change r * (level1_tracker.Prev_Close r * level1_tracker.Shares r).
Proof.
  intros Hc. cbn. split; [reflexivity |]. split; [ring | by field].
Qed.

Lemma dashboard_row_facts (ticker : string) (p c sh a : Q) :
  ~ c == 0 ->
  let r := dashboard_row ticker p c sh a in
  level2_dashboard.Total_PL_USD r ==
    level2_dashboard.Current_Value r - level2_dashboard.Total_Cost r /\
  level2_dashboard.Daily_Gain_Loss_USD r ==
    level2_dashboard.Current_Value r -
    level2_dashboard.Previous_Close r * level2_dashboard.Shares r /\
  100 * level2_dashboard.Daily_Gain_Loss_USD r ==
    level2_dashboard.Daily_Pct_Change r *
    (level2_dashboard.Previous_Close r * level2_dashboard.Shares r).
Proof.
  intros Hc. cbn. split; [reflexivity |]. split; [ring | by field].
Qed.

Lemma console_frame_inv (yf_info : string -> result (gmap string pyval))
    (portfolio : level1_tracker.pydict (gmap string Q))
    (frame : option (list level1_tracker.row))
    (printed : list level1_tracker.warning) :
  level1_tracker.get_portfolio_summary yf_info portfolio = Ok (frame, printed) ->
  Forall (console_row_of portfolio) (default [] frame) /\
  (forall df, frame = Some df -> df <> []).
Proof.
  unfold level1_tracker.get_portfolio_summary, level1_tracker.summarize.
  destruct (level1_tracker.fetch_all yf_info (level1_tracker.keys portfolio))
    as [stock_data | e] eqn:Hfetch; cbn [mbind result_bind]; [| done].
  destruct (level1_tracker.summary_loop portfolio stock_data [] [])
    as [[data pr] | e] eqn:Hloop; cbn [mbind result_bind mret result_ret]; [| done].
  intros [= <- <-]. split.
  - assert (Hdata : default [] (match data with [] => None | _ => Some data end) = data)
      by (by destruct data).
    rewrite Hdata. eapply summary_loop_Forall; [| | exact Hloop]; [| done].
    intros info r _ Hr. by apply (console_appended_row_of _ info).
  - intros df. by destruct data; intros [= <-].
Qed.

Lemma console_row_of_facts (portfolio : level1_tracker.pydict (gmap string Q))
    (r : level1_tracker.row) :
  console_row_of portfolio r ->
  0 < level1_tracker.Shares r /\
  level1_tracker.Total_PL_USD r ==
    level1_tracker.Current_Value r - level1_tracker.Total_Cost r /\
  level1_tracker.Daily_Change_USD r ==
    level1_tracker.Current_Value r - level1_tracker.Prev_Close r * level1_tracker.Shares r /\
  100 * level1_tracker.Daily_Change_USD r ==
    level1_tracker.Daily_Pct_Change r * (level1_tracker.Prev_Close r * level1_tracker.Shares r) /\
  level1_tracker.Daily_Change_USD r ==
    (level1_tracker.Current_Price r - level1_tracker.Prev_Close r) * level1_tracker.Shares r /\
  level1_tracker.Daily_Pct_Change r ==
    (level1_tracker.Current_Price r - level1_tracker.Prev_Close r) /
    level1_tracker.Prev_Close r * 100.
Proof.
  intros (s & hd & p & c & _ & _ & Hsh & _ & Hc & Hr).
  split; [done |]. rewrite Hr.
  destruct (console_row_facts (PyStr s) p c (level1_tracker.Shares r)
              (default 0 (hd !! "avg_cost")) Hc) as (H1 & H2 & H3).
  split; [exact H1 |]. split; [exact H2 |]. split; [exact H3 |].
  cbn. split; reflexivity.
Qed.

Lemma dashboard_frame_rows (yf_info : string -> result (gmap string pyval))
    (uploaded : list level2_dashboard.holding) :
  Forall (dashboard_row_of uploaded)
    (default [] (level2_dashboard.get_realtime_data yf_info
                   (level2_dashboard.parse_portfolio_input (Some (Ok uploaded))).1).1).
Proof.
  destruct (get_realtime_data_rows yf_info
              (level2_dashboard.parse_portfolio_input (Some (Ok uploaded))).1) as [-> _].
  apply realtime_loop_Forall; [| done].
  intros h r Hin Hr. by apply (dashboard_appended_row_of yf_info uploaded h).
Qed.

Lemma dashboard_row_of_facts (uploaded : list level2_dashboard.holding)
    (r : level2_dashboard.row) :
  dashboard_row_of uploaded r ->
  0 < level2_dashboard.Shares r /\
  level2_dashboard.Current_Value r ==
    level2_dashboard.Current_Price r * level2_dashboard.Shares r /\
  100 * level2_dashboard.Daily_Gain_Loss_USD r ==
    level2_dashboard.Daily_Pct_Change r *
    (level2_dashboard.Previous_Close r * level2_dashboard.Shares r).
Proof.
  intros (h & p & c & _ & Hsh & Hc & ->). split; [done |]. split; [reflexivity |].
  by destruct (dashboard_row_facts
    (level2_dashboard.strip (level2_dashboard.upper (level2_dashboard.h_Ticker h)))
    p c (level2_dashboard.h_Shares h) (level2_dashboard.h_Avg_Cost h) Hc) as (_ & _ & H).
Qed.

(** ** Totals of the console that are not negative *)

(** X11: when no row of the frame has a negative daily change in value,
    the total daily change is not negative and neither is the portfolio
    percentage, whatever the previous closes are: the "Total Daily Change"
    line of the console is green, with a "+" before the amount and before
    the percentage. *)
Theorem X11_console_no_loss_is_green (df : list level1_tracker.row) :
  Forall (fun r => 0 <= level1_tracker.Daily_Change_USD r) df ->
  0 <= total_daily_gain (level1_tracker.aggregate df) /\
  0 <= portfolio_daily_percent (level1_tracker.aggregate df) /\
  level1_tracker.print_daily_change df =
    {| level1_tracker.gain_sign := "+";
       level1_tracker.percent_sign := "+";
       level1_tracker.gain_color := level1_tracker.Green |}.
Proof.
  intros Hdf.
  pose proof (col_sum_nonneg level1_tracker.Daily_Change_USD df Hdf) as Hgain.
  assert (Hpct : 0 <= portfolio_daily_percent (level1_tracker.aggregate df)).
  { cbn. destruct (Qgtb _ 0) eqn:E; [| by vm_compute].
    apply Qgtb_true in E. by apply Qdiv_percent_nonneg. }
  split; [exact Hgain |]. split; [exact Hpct |].
  unfold level1_tracker.print_daily_change, level1_tracker.plus_sign,
    level1_tracker.daily_color.
  apply Qgeb_true in Hpct.
  assert (Hg : Qgeb (total_daily_gain (level1_tracker.aggregate df)) 0 = true)
    by (by apply Qgeb_true).
  by rewrite Hpct, Hg.
Qed.

Lemma X11_console_no_loss_is_green_witness :
  0 <= total_daily_gain
         (level1_tracker.aggregate
            [console_row (PyStr "X") 110 108 10 100; console_row (PyStr "Y") 50 50 4 60]) /\
  0 <= portfolio_daily_percent
         (level1_tracker.aggregate
            [console_row (PyStr "X") 110 108 10 100; console_row (PyStr "Y") 50 50 4 60]) /\
  level1_tracker.print_daily_change
    [console_row (PyStr "X") 110 108 10 100; console_row (PyStr "Y") 50 50 4 60] =
    {| level1_tracker.gain_sign := "+";
       level1_tracker.percent_sign := "+";
       level1_tracker.gain_color := level1_tracker.Green |}.
Proof.
  apply X11_console_no_loss_is_green. repeat constructor; by vm_compute.
Defined.

(** ** Signs and colours in the console *)

(** X12: in a line of the console the "+" and the green colour are chosen
    by the daily change in value while the number printed after them is
    the daily percentage.  For a row with a positive previous close the two
    agree: the line is green with a "+" exactly when the percentage is not
    negative. *)
Theorem X12_console_line_sign
    (yf_info : string -> result (gmap string pyval))
    (portfolio : level1_tracker.pydict (gmap string Q))
    (frame : option (list level1_tracker.row))
    (printed : list level1_tracker.warning) (r : level1_tracker.row) :
  level1_tracker.get_portfolio_summary yf_info portfolio = Ok (frame, printed) ->
  r ∈ default [] frame ->
  0 < level1_tracker.Prev_Close r ->
  (level1_tracker.line_sign (level1_tracker.print_holding r) = "+" <->
     0 <= level1_tracker.line_daily_percent (level1_tracker.print_holding r)) /\
  (level1_tracker.line_color (level1_tracker.print_holding r) = level1_tracker.Green <->
     0 <= level1_tracker.line_daily_percent (level1_tracker.print_holding r)).
Proof.
  intros Hsum Hin Hc. apply console_frame_inv in Hsum as [Hrows _].
  rewrite Forall_forall in Hrows.
  destruct (console_row_of_facts _ _ (Hrows r Hin)) as (Hsh & _ & _ & _ & Hgain & Hpct).
  cbn [level1_tracker.print_holding level1_tracker.line_sign level1_tracker.line_color
       level1_tracker.line_daily_percent].
  assert (Hiff : 0 <= level1_tracker.Daily_Change_USD r <->
                 0 <= level1_tracker.Daily_Pct_Change r).
  { rewrite Hgain, Hpct, <- (Qdiv_percent_nonneg _ _ Hc). split; intros H; nra. }
  unfold level1_tracker.plus_sign, level1_tracker.daily_color.
  destruct (Qgeb (level1_tracker.Daily_Change_USD r) 0) eqn:E.
  - apply Qgeb_true in E. by split; split; intros _; try apply Hiff.
  - assert (Hneg : ~ 0 <= level1_tracker.Daily_Change_USD r).
    { intros H. apply Qgeb_true in H. congruence. }
    split; split; try done; intros H; destruct Hneg; by apply Hiff.
Qed.

Lemma X12_console_line_sign_witness :
  (level1_tracker.line_sign
     (level1_tracker.print_holding (console_row (PyStr "X") 110 108 10 100)) = "+" <->
   0 <= level1_tracker.line_daily_percent
          (level1_tracker.print_holding (console_row (PyStr "X") 110 108 10 100))) /\
  (level1_tracker.line_color
     (level1_tracker.print_holding (console_row (PyStr "X") 110 108 10 100)) =
     level1_tracker.Green <->
   0 <= level1_tracker.line_daily_percent
          (level1_tracker.print_holding (console_row (PyStr "X") 110 108 10 100))).
Proof.
  apply (X12_console_line_sign yf_sample portfolio_XY
           (Some [console_row (PyStr "X") 110 108 10 100])
           [level1_tracker.CouldNotFetchCompleteData (PyStr "Y")]).
  - reflexivity.
  - by left.
  - reflexivity.
Defined.

(** X13: in the "Total Daily Change" line the sign of the amount and the
    sign of the percentage are the same when the previous closes of the
    rows are positive; the previous value of the portfolio is then
    positive, so the percentage is the quotient and not the 0 of the
    guard. *)
Theorem X13_console_total_signs
    (yf_info : string -> result (gmap string pyval))
    (portfolio : level1_tracker.pydict (gmap string Q))
    (df : list level1_tracker.row) (printed : list level1_tracker.warning) :
  level1_tracker.get_portfolio_summary yf_info portfolio = Ok (Some df, printed) ->
  Forall (fun r => 0 < level1_tracker.Prev_Close r) df ->
  0 < total_prev_value (level1_tracker.aggregate df) /\
  level1_tracker.gain_sign (level1_tracker.print_daily_change df) =
    level1_tracker.percent_sign (level1_tracker.print_daily_change df).
Proof.
  intros Hsum Hdf. apply console_frame_inv in Hsum as [Hrows Hne].
  cbn [default from_option id] in Hrows.
  assert (Hpos : 0 < col_sum (fun r => level1_tracker.Prev_Close r * level1_tracker.Shares r) df).
  { apply col_sum_pos; [by apply Hne |]. apply Forall_forall. intros r Hin.
    rewrite Forall_forall in Hrows, Hdf.
    destruct (console_row_of_facts _ _ (Hrows r Hin)) as (Hsh & _).
    by apply Qmult_lt_0_compat; [apply Hdf |]. }
  split; [exact Hpos |].
  cbn [level1_tracker.print_daily_change level1_tracker.gain_sign
       level1_tracker.percent_sign].
  unfold level1_tracker.aggregate; cbn [total_daily_gain portfolio_daily_percent].
  pose proof Hpos as Hgt. apply Qgtb_true in Hgt. rewrite Hgt.
  unfold level1_tracker.plus_sign.
  pose proof (Qdiv_percent_nonneg (col_sum level1_tracker.Daily_Change_USD df) _ Hpos) as Hiff.
  destruct (Qgeb (col_sum level1_tracker.Daily_Change_USD df) 0) eqn:E1;
    destruct (Qgeb (col_sum level1_tracker.Daily_Change_USD df /
                    col_sum (fun r => level1_tracker.Prev_Close r * level1_tracker.Shares r) df
                    * 100) 0) eqn:E2; try done.
  - apply Qgeb_true, Hiff, Qgeb_true in E1. congruence.
  - apply Qgeb_true, Hiff, Qgeb_true in E2. congruence.
Qed.

Lemma X13_console_total_signs_witness :
  0 < total_prev_value (level1_tracker.aggregate [console_row (PyStr "X") 110 108 10 100]) /\
  level1_tracker.gain_sign
    (level1_tracker.print_daily_change [console_row (PyStr "X") 110 108 10 100]) =
  level1_tracker.percent_sign
    (level1_tracker.print_daily_change [console_row (PyStr "X") 110 108 10 100]).
Proof.
  apply (X13_console_total_signs yf_sample portfolio_XY _
           [level1_tracker.CouldNotFetchCompleteData (PyStr "Y")]).
  - reflexivity.
  - repeat constructor.
Defined.

(** ** The pie chart and the pages of the dashboard *)

Lemma filter_iff_on {A} (P1 P2 : A -> Prop)
    `{!forall x, Decision (P1 x), !forall x, Decision (P2 x)} (l : list A) :
  Forall (fun x => P1 x <-> P2 x) l -> filter P1 l = filter P2 l.
Proof.
  induction 1 as [| x l Hx _ IH]; [done |].
  rewrite !filter_cons, IH. destruct (decide (P1 x)), (decide (P2 x)); tauto.
Qed.

Lemma filter_all {A} (P : A -> Prop) `{!forall x, Decision (P x)} (l : list A) :
  Forall P l -> filter P l = l.
Proof.
  induction 1 as [| x l Hx _ IH]; [done |].
  by rewrite filter_cons_True, IH.
Qed.

(** X14: in the frame the dashboard computes from an upload, the rows of
    the pie chart are the rows whose current price is positive; when all
    prices are positive the pie shows every row. *)
Theorem X14_pie_rows
    (yf_info : string -> result (gmap string pyval))
    (uploaded : list level2_dashboard.holding) :
  let realtime_df :=
    default [] (level2_dashboard.get_realtime_data yf_info
                  (level2_dashboard.parse_portfolio_input (Some (Ok uploaded))).1).1 in
  level2_dashboard.pie_data realtime_df =
    filter (fun r => Qgtb (level2_dashboard.Current_Price r) 0 = true) realtime_df /\
  (Forall (fun r => 0 < level2_dashboard.Current_Price r) realtime_df ->
   level2_dashboard.pie_data realtime_df = realtime_df).
Proof.
  cbn zeta. pose proof (dashboard_frame_rows yf_info uploaded) as Hrows.
  set (realtime_df := default [] _) in *.
  assert (Hiff : Forall (fun r => Qgtb (level2_dashboard.Current_Value r) 0 = true <->
                                  Qgtb (level2_dashboard.Current_Price r) 0 = true) realtime_df).
  { eapply Forall_impl; [exact Hrows |]. intros r Hr.
    destruct (dashboard_row_of_facts _ _ Hr) as (Hsh & Hcv & _).
    rewrite !Qgtb_true, Hcv. split; intros H; nra. }
  split.
  - unfold level2_dashboard.pie_data. by apply filter_iff_on.
  - intros Hpos. unfold level2_dashboard.pie_data. apply filter_all.
    rewrite Forall_forall in Hiff, Hpos. apply Forall_forall. intros r Hin.
    apply (Hiff r Hin), Qgtb_true, (Hpos r Hin).
Qed.

Lemma realtime_loop_nil_all_skipped (yf_info : string -> result (gmap string pyval))
    (portfolio_df : list level2_dashboard.holding) :
  forall results shown,
    (level2_dashboard.realtime_loop yf_info portfolio_df results shown).1 = [] ->
    Forall (dashboard_skips yf_info) portfolio_df.
Proof.
  induction portfolio_df as [| h rest IH]; intros results shown; [done |].
  cbn [level2_dashboard.realtime_loop].
  destruct (level2_dashboard.realtime_position yf_info h) as [r | w] eqn:Hpos.
  - destruct (realtime_loop_extends yf_info rest (results ++ [r]) shown) as [more ->].
    intros H. by destruct results.
  - intros H. constructor; [by exists w | by apply (IH results (shown ++ [w]))].
Qed.

(** X15: which page [app] shows.  The upload prompt means that no uploaded
    row was kept (nothing uploaded, a parse error, or no row with positive
    shares); the error page means that rows were kept and every one of
    them was skipped; the page with the tiles shows a frame that is not
    empty, with the totals of that frame. *)
Theorem X15_app_pages
    (yf_info : string -> result (gmap string pyval))
    (uploaded_file : option (result (list level2_dashboard.holding))) :
  match (level2_dashboard.app yf_info uploaded_file).1 with
  | level2_dashboard.UploadPrompt =>
      (level2_dashboard.parse_portfolio_input uploaded_file).1 = []
  | level2_dashboard.Stopped =>
      (level2_dashboard.parse_portfolio_input uploaded_file).1 <> [] /\
      Forall (dashboard_skips yf_info)
        (level2_dashboard.parse_portfolio_input uploaded_file).1
  | level2_dashboard.Tiles realtime_df totals =>
      realtime_df <> [] /\
      (level2_dashboard.get_realtime_data yf_info
         (level2_dashboard.parse_portfolio_input uploaded_file).1).1 = Some realtime_df /\
      totals = level2_dashboard.global_metrics realtime_df
  end.
Proof.
  unfold level2_dashboard.app.
  destruct (level2_dashboard.parse_portfolio_input uploaded_file) as [config shown].
  cbn [fst]. destruct config as [| h rest]; [done |].
  pose proof (get_realtime_data_frame yf_info (h :: rest)) as Hframe.
  destruct (level2_dashboard.get_realtime_data yf_info (h :: rest)) as [frame shown'].
  cbn [fst] in *.
  destruct (level2_dashboard.realtime_loop yf_info (h :: rest) [] []).1 as [| r df] eqn:Hloop;
    subst frame; cbn [fst].
  - split; [done |]. by apply (realtime_loop_nil_all_skipped yf_info _ [] []).
  - by repeat split.
Qed.

(** X16: an upload with a ticker column of strings in which no row has
    positive shares shows the upload prompt and nothing else: no warning or
    error names the rows that were dropped, and the sidebar hint, shown
    when nothing is uploaded, is not shown either.  An upload on which the
    [try] block raises, as one with a ticker column of numbers does, shows
    the upload prompt after the error message. *)
Theorem X16_app_no_positive_shares
    (yf_info : string -> result (gmap string pyval))
    (uploaded : list level2_dashboard.holding) :
  Forall (fun h => level2_dashboard.h_Shares h <= 0) uploaded ->
  level2_dashboard.app yf_info (Some (Ok uploaded)) = (level2_dashboard.UploadPrompt, []) /\
  level2_dashboard.app yf_info None =
    (level2_dashboard.UploadPrompt, [level2_dashboard.PleaseUploadPortfolio]) /\
  forall e, level2_dashboard.app yf_info (Some (Raise e)) =
    (level2_dashboard.UploadPrompt, [level2_dashboard.ErrorParsingUploadedFile e]).
Proof.
  intros Hall.
  assert (Hparse : level2_dashboard.parse_portfolio_input (Some (Ok uploaded)) = ([], [])).
  { rewrite parse_rows. f_equal.
    induction Hall as [| h l Hh _ IH]; [done |].
    rewrite filter_cons_False; [done |]. apply Qgtb_false in Hh. by rewrite Hh. }
  split; [| by split]. unfold level2_dashboard.app. by rewrite Hparse.
Qed.

Lemma X16_app_no_positive_shares_witness :
  level2_dashboard.app yf_sample
    (Some (Ok [level2_dashboard.mkHolding "X" 0 100; level2_dashboard.mkHolding "Y" (-3) 60])) =
    (level2_dashboard.UploadPrompt, []) /\
  level2_dashboard.app yf_sample None =
    (level2_dashboard.UploadPrompt, [level2_dashboard.PleaseUploadPortfolio]) /\
  forall e, level2_dashboard.app yf_sample (Some (Raise e)) =
    (level2_dashboard.UploadPrompt, [level2_dashboard.ErrorParsingUploadedFile e]).
Proof.
  apply X16_app_no_positive_shares. repeat constructor; by vm_compute.
Defined.

(** ** Cleaned tickers *)

Lemma upper_ascii_idem (c : ascii) :
  level2_dashboard.upper_ascii (level2_dashboard.upper_ascii c) =
  level2_dashboard.upper_ascii c.
Proof.
  destruct c as [[] [] [] [] [] [] [] []]; vm_compute; reflexivity.
Qed.

Lemma isspace_upper_ascii (c : ascii) :
  level2_dashboard.isspace (level2_dashboard.upper_ascii c) = level2_dashboard.isspace c.
Proof.
  destruct c as [[] [] [] [] [] [] [] []]; vm_compute; reflexivity.
Qed.

Lemma upper_idem (s : string) :
  level2_dashboard.upper (level2_dashboard.upper s) = level2_dashboard.upper s.
Proof.
  induction s as [| c s IH]; [done |].
  cbn [level2_dashboard.upper]. by rewrite upper_ascii_idem, IH.
Qed.

Lemma upper_lstrip (s : string) :
  level2_dashboard.lstrip (level2_dashboard.upper s) =
  level2_dashboard.upper (level2_dashboard.lstrip s).
Proof.
  induction s as [| c s IH]; [done |].
  cbn [level2_dashboard.upper level2_dashboard.lstrip].
  rewrite isspace_upper_ascii. by destruct (level2_dashboard.isspace c).
Qed.

Lemma upper_rev_app (s1 s2 : string) :
  level2_dashboard.upper (String.rev_app s1 s2) =
  String.rev_app (level2_dashboard.upper s1) (level2_dashboard.upper s2).
Proof.
  revert s2. induction s1 as [| c s1 IH]; intros s2; [done |].
  cbn [String.rev_app level2_dashboard.upper]. by rewrite IH.
Qed.

Lemma upper_strip (s : string) :
  level2_dashboard.upper (level2_dashboard.strip s) =
  level2_dashboard.strip (level2_dashboard.upper s).
Proof.
  unfold level2_dashboard.strip, String.rev.
  by rewrite upper_rev_app, <- upper_lstrip, upper_rev_app, <- upper_lstrip.
Qed.

Lemma append_empty_r (s : string) : String.append s "" = s.
Proof.
  induction s as [| c s IH]; [done |].
  change (String c (String.append s "") = String c s). by rewrite IH.
Qed.

Lemma rev_app_rev_app (s1 s2 s3 : string) :
  String.rev_app (String.rev_app s1 s2) s3 = String.rev_app s2 (String.append s1 s3).
Proof.
  revert s2 s3. induction s1 as [| c s1 IH]; intros s2 s3; [done |].
  cbn [String.rev_app]. by rewrite IH.
Qed.

Lemma rev_involutive (s : string) : String.rev (String.rev s) = s.
Proof.
  unfold String.rev. rewrite rev_app_rev_app. cbn. apply append_empty_r.
Qed.

Lemma lstrip_length (s : string) :
  (String.length (level2_dashboard.lstrip s) <= String.length s)%nat.
Proof.
  induction s as [| c s IH]; [done |].
  cbn [level2_dashboard.lstrip]. destruct (level2_dashboard.isspace c); cbn in *; lia.
Qed.

Lemma lstrip_fix (s : string) :
  level2_dashboard.lstrip s = s <-> leading_space s = false.
Proof.
  destruct s as [| c s]; [done |].
  cbn [level2_dashboard.lstrip leading_space].
  destruct (level2_dashboard.isspace c); [| done].
  split; [| done]. intros H. pose proof (lstrip_length s) as Hlen.
  rewrite H in Hlen. cbn in Hlen. lia.
Qed.

Lemma lstrip_no_leading_space (s : string) :
  leading_space (level2_dashboard.lstrip s) = false.
Proof.
  induction s as [| c s IH]; [done |].
  cbn [level2_dashboard.lstrip].
  by destruct (level2_dashboard.isspace c) eqn:E; [| cbn; rewrite E].
Qed.

Lemma lstrip_idem (s : string) :
  level2_dashboard.lstrip (level2_dashboard.lstrip s) = level2_dashboard.lstrip s.
Proof.
  apply lstrip_fix, lstrip_no_leading_space.
Qed.

(** The first character of a reversed string that is not empty does not
    depend on what it is reversed onto. *)
Lemma leading_space_rev_app (t acc acc' : string) :
  t <> EmptyString ->
  leading_space (String.rev_app t acc) = leading_space (String.rev_app t acc').
Proof.
  revert acc acc'. induction t as [| c t IH]; intros acc acc' Hne; [done |].
  cbn [String.rev_app]. destruct t as [| c' t]; [done |]. by apply IH.
Qed.

Lemma rev_lstrip_no_leading_space (t : string) :
  leading_space (String.rev t) = false ->
  leading_space (String.rev (level2_dashboard.lstrip t)) = false.
Proof.
  unfold String.rev. induction t as [| c t IH]; [done |].
  cbn [level2_dashboard.lstrip String.rev_app].
  destruct (level2_dashboard.isspace c) eqn:E; [| done].
  destruct t as [| c' t]; [cbn; by rewrite E |].
  intros H. apply IH. by rewrite (leading_space_rev_app _ "" (String c "")).
Qed.

Lemma strip_no_leading_space (s : string) :
  leading_space (level2_dashboard.strip s) = false.
Proof.
  unfold level2_dashboard.strip. apply rev_lstrip_no_leading_space.
  rewrite rev_involutive. apply lstrip_no_leading_space.
Qed.

Lemma strip_idem (s : string) :
  level2_dashboard.strip (level2_dashboard.strip s) = level2_dashboard.strip s.
Proof.
  pose proof (strip_no_leading_space s) as H. apply lstrip_fix in H.
  unfold level2_dashboard.strip at 1. rewrite H.
  unfold level2_dashboard.strip. by rewrite rev_involutive, lstrip_idem.
Qed.

Lemma strip_upper_clean (s : string) :
  clean_ticker (level2_dashboard.strip (level2_dashboard.upper s)).
Proof.
  split.
  - by rewrite upper_strip, upper_idem.
  - apply strip_idem.
Qed.

Lemma upper_strip_ticker_idem (h : level2_dashboard.holding) :
  level2_dashboard.upper_strip_ticker (level2_dashboard.upper_strip_ticker h) =
  level2_dashboard.upper_strip_ticker h.
Proof.
  unfold level2_dashboard.upper_strip_ticker.
  cbn [level2_dashboard.h_Ticker level2_dashboard.h_Shares level2_dashboard.h_Avg_Cost].
  destruct (strip_upper_clean (level2_dashboard.h_Ticker h)) as [Hu Hs].
  by rewrite Hu, Hs.
Qed.

(** X17: the tickers of the parsed holdings are in upper case and have no
    whitespace around them, the shares are positive, and parsing what was
    parsed changes nothing. *)
Theorem X17_parse_normal_form
    (uploaded_file : option (result (list level2_dashboard.holding))) :
  Forall (fun h => clean_ticker (level2_dashboard.h_Ticker h) /\
                   0 < level2_dashboard.h_Shares h)
    (level2_dashboard.parse_portfolio_input uploaded_file).1 /\
  level2_dashboard.parse_portfolio_input
    (Some (Ok (level2_dashboard.parse_portfolio_input uploaded_file).1)) =
  ((level2_dashboard.parse_portfolio_input uploaded_file).1, []).
Proof.
  destruct uploaded_file as [[df | e] |]; [| done | done].
  rewrite !parse_rows. cbn [fst]. split.
  - apply Forall_fmap, Forall_forall. intros h Hin.
    apply list_elem_of_filter in Hin as [Hsh _]. apply Qgtb_true in Hsh.
    split; [apply strip_upper_clean | done].
  - f_equal.
    induction df as [| h df IH]; [done |].
    rewrite filter_cons. case_decide as Hsh; [| exact IH].
    rewrite fmap_cons, filter_cons_True by done.
    by rewrite fmap_cons, upper_strip_ticker_idem, IH.
Qed.

(** ** The two entry points on the same holdings *)

Lemma col_sum_Forall2 {A B} (f : A -> Q) (g : B -> Q) (l1 : list A) (l2 : list B) :
  Forall2 (fun a b => f a = g b) l1 l2 -> col_sum f l1 = col_sum g l2.
Proof.
  unfold col_sum. induction 1 as [| a b l1 l2 Hab _ IH]; cbn [foldr]; [done |].
  by rewrite Hab, IH.
Qed.

(** Rows with the same numbers give the same sums and the same daily
    percentage: nothing but the rows enters the totals. *)
Lemma aggregate_agree (df : list level1_tracker.row) (realtime_df : list level2_dashboard.row) :
  Forall2 same_figures df realtime_df ->
  same_totals (level1_tracker.aggregate df) (level2_dashboard.global_metrics realtime_df).
Proof.
  intros Hsame.
  assert (Hv : col_sum level1_tracker.Current_Value df =
               col_sum level2_dashboard.Current_Value realtime_df).
  { apply col_sum_Forall2. eapply Forall2_impl; [exact Hsame |].
    intros r1 r2 (H & _). by apply (f_equal current_value) in H. }
  assert (Hc : col_sum level1_tracker.Total_Cost df =
               col_sum level2_dashboard.Total_Cost realtime_df).
  { apply col_sum_Forall2. eapply Forall2_impl; [exact Hsame |].
    intros r1 r2 (H & _). by apply (f_equal total_cost) in H. }
  assert (Hd : col_sum level1_tracker.Daily_Change_USD df =
               col_sum level2_dashboard.Daily_Gain_Loss_USD realtime_df).
  { apply col_sum_Forall2. eapply Forall2_impl; [exact Hsame |].
    intros r1 r2 (H & _). by apply (f_equal daily_change_value) in H. }
  assert (Hp : col_sum (fun r => level1_tracker.Prev_Close r * level1_tracker.Shares r) df =
               col_sum (fun r => level2_dashboard.Previous_Close r * level2_dashboard.Shares r)
                 realtime_df).
  { apply col_sum_Forall2. eapply Forall2_impl; [exact Hsame |].
    by intros r1 r2 (_ & -> & _ & ->). }
  unfold same_totals, level1_tracker.aggregate, level2_dashboard.global_metrics; cbn.
  rewrite Hv, Hc, Hd, Hp. repeat (split; [done |]).
  destruct (Qgtb _ 0); [reflexivity | by vm_compute].
Qed.

Lemma lookup_item_portfolio_of (hs : list level2_dashboard.holding)
    (h : level2_dashboard.holding) :
  NoDup (level2_dashboard.h_Ticker <$> hs) ->
  h ∈ hs ->
  level1_tracker.lookup_item (portfolio_of hs) (level2_dashboard.h_Ticker h) =
    Some (holdings_dict h).
Proof.
  induction hs as [| h' hs IH]; intros Hnd Hin; [by apply elem_of_nil in Hin |].
  rewrite fmap_cons in Hnd. apply NoDup_cons in Hnd as [Hnotin Hnd].
  unfold portfolio_of. rewrite fmap_cons. cbn [level1_tracker.lookup_item].
  apply elem_of_cons in Hin as [-> | Hin].
  - by rewrite String.eqb_refl.
  - assert (Hne : level2_dashboard.h_Ticker h <> level2_dashboard.h_Ticker h').
    { intros Heq. apply Hnotin. rewrite <- Heq. by apply list_elem_of_fmap_2. }
    apply String.eqb_neq in Hne. rewrite Hne. by apply IH.
Qed.

Lemma parse_clean (hs : list level2_dashboard.holding) :
  Forall (fun h => clean_ticker (level2_dashboard.h_Ticker h) /\
                   0 < level2_dashboard.h_Shares h) hs ->
  (level2_dashboard.parse_portfolio_input (Some (Ok hs))).1 = hs.
Proof.
  intros Hall. rewrite parse_rows. cbn [fst].
  rewrite filter_all.
  - induction Hall as [| h l [[Hu Hs] _] _ IH]; [done |].
    rewrite fmap_cons, IH. f_equal.
    destruct h as [t sh a]. unfold level2_dashboard.upper_strip_ticker.
    cbn [level2_dashboard.h_Ticker level2_dashboard.h_Shares level2_dashboard.h_Avg_Cost] in *.
    by rewrite Hu, Hs.
  - eapply Forall_impl; [exact Hall |]. intros h [_ Hsh]. by apply Qgtb_true.
Qed.

Section same_holdings.

Variable yf_info : string -> result (gmap string pyval).
Variable portfolio : level1_tracker.pydict (gmap string Q).

(** One holding that the portfolio has under its ticker, with an agreeing
    quote, gives a row in both loops, with the same figures. *)
Lemma both_positions (h : level2_dashboard.holding) :
  level1_tracker.lookup_item portfolio (level2_dashboard.h_Ticker h) = Some (holdings_dict h) ->
  0 < level2_dashboard.h_Shares h ->
  agreeing_quote yf_info h ->
  exists info r1 r2,
    yf_info (level2_dashboard.h_Ticker h) = Ok info /\
    level1_tracker.get_position portfolio info = Ok (level1_tracker.Appended r1) /\
    level2_dashboard.realtime_position yf_info h = level2_dashboard.Appended r2 /\
    same_figures r1 r2.
Proof.
  intros Hlook Hsh (info & p & c & Hf & Hsym & Hcur & Hreg & Hp & Hprev & Hc).
  destruct h as [t sh a].
  cbn [level2_dashboard.h_Ticker level2_dashboard.h_Shares level2_dashboard.h_Avg_Cost] in *.
  assert (Hconsole : console_reads portfolio info (PyNum p) (PyNum c) sh a).
  { split; [| split; [| split]].
    - unfold level1_tracker.current_price_of, dict_get_default. by rewrite Hreg.
    - unfold dict_get. by rewrite Hprev.
    - rewrite Hsym. cbn [level1_tracker.portfolio_get]. rewrite Hlook.
      cbn [from_option id]. unfold holdings_dict.
      cbn [level2_dashboard.h_Shares level2_dashboard.h_Avg_Cost].
      by rewrite lookup_insert_eq.
    - rewrite Hsym. cbn [level1_tracker.portfolio_get]. rewrite Hlook.
      cbn [from_option id]. unfold holdings_dict.
      cbn [level2_dashboard.h_Shares level2_dashboard.h_Avg_Cost].
      by rewrite lookup_insert_ne, lookup_singleton_eq. }
  assert (Hdash : dashboard_reads yf_info t (PyNum p) (PyNum c)).
  { exists info. split; [done |]. split.
    - unfold level2_dashboard.current_price_of, dict_get, py_or. rewrite Hcur.
      cbn [from_option id].
      assert (Ht : truthy (PyNum p) = true) by (apply truthy_num; lra).
      by rewrite Ht.
    - unfold dict_get. by rewrite Hprev. }
  exists info, (console_row (dict_get info "symbol") p c sh a), (dashboard_row t p c sh a).
  split; [done |]. split; [| split].
  - apply (console_computed _ _ _ _ _ _ Hconsole); [lra | lra | done].
  - apply (dashboard_computed _ _ _ _ _ _ Hdash). lra.
  - by repeat split.
Qed.

Lemma both_loops (hs : list level2_dashboard.holding) :
  Forall (fun h =>
            level1_tracker.lookup_item portfolio (level2_dashboard.h_Ticker h) =
              Some (holdings_dict h) /\
            0 < level2_dashboard.h_Shares h /\
            agreeing_quote yf_info h) hs ->
  exists stock_data,
    level1_tracker.fetch_all yf_info (level2_dashboard.h_Ticker <$> hs) = Ok stock_data /\
    forall data printed results shown,
      exists rows1 rows2,
        level1_tracker.summary_loop portfolio stock_data data printed =
          Ok (data ++ rows1, printed) /\
        level2_dashboard.realtime_loop yf_info hs results shown = (results ++ rows2, shown) /\
        Forall2 same_figures rows1 rows2.
Proof.
  induction 1 as [| h hs (Hlook & Hsh & Hq) _ (stock_data & Hfetch & IH)].
  - exists []. split; [done |]. intros data printed results shown.
    exists [], []. by rewrite !app_nil_r.
  - destruct (both_positions h Hlook Hsh Hq) as (info & r1 & r2 & Hf & Hr1 & Hr2 & Hsame).
    exists (info :: stock_data). split.
    + rewrite fmap_cons. cbn [level1_tracker.fetch_all]. by rewrite Hf, Hfetch.
    + intros data printed results shown.
      destruct (IH (data ++ [r1]) printed (results ++ [r2]) shown)
        as (rows1 & rows2 & Hl1 & Hl2 & Hrows).
      exists (r1 :: rows1), (r2 :: rows2).
      cbn [level1_tracker.summary_loop level2_dashboard.realtime_loop].
      rewrite Hr1, Hr2. cbn [mbind result_bind]. rewrite Hl1, Hl2.
      rewrite <- !app_assoc. by repeat split; [constructor].
Qed.

End same_holdings.

(** X18: run on the same holdings, with distinct clean tickers and
    positive shares, and on quotes that come back under the ticker asked
    for with the same value under the two price keys and a positive
    previous close, the console and the dashboard skip nothing, compute
    rows that hold the same numbers, and obtain the same total value, total
    cost, total daily gain, previous value and daily percentage.  (The
    lifetime profit is computed in two ways and is not part of this.) *)
Theorem X18_console_and_dashboard_agree
    (yf_info : string -> result (gmap string pyval))
    (hs : list level2_dashboard.holding) :
  NoDup (level2_dashboard.h_Ticker <$> hs) ->
  Forall (fun h => clean_ticker (level2_dashboard.h_Ticker h) /\
                   0 < level2_dashboard.h_Shares h) hs ->
  Forall (agreeing_quote yf_info) hs ->
  exists frame,
    level1_tracker.get_portfolio_summary yf_info (portfolio_of hs) = Ok (frame, []) /\
    (level2_dashboard.get_realtime_data yf_info
       (level2_dashboard.parse_portfolio_input (Some (Ok hs))).1).2 = [] /\
    Forall2 same_figures (default [] frame)
      (default [] (level2_dashboard.get_realtime_data yf_info
                     (level2_dashboard.parse_portfolio_input (Some (Ok hs))).1).1) /\
    same_totals
      (level1_tracker.aggregate (default [] frame))
      (level2_dashboard.global_metrics
         (default [] (level2_dashboard.get_realtime_data yf_info
                        (level2_dashboard.parse_portfolio_input (Some (Ok hs))).1).1)).
Proof.
  intros Hnd Hclean Hquotes. rewrite (parse_clean _ Hclean).
  destruct (both_loops yf_info (portfolio_of hs) hs) as (stock_data & Hfetch & Hloops).
  { apply Forall_forall. intros h Hin.
    rewrite Forall_forall in Hclean, Hquotes.
    split; [by apply lookup_item_portfolio_of |].
    split; [apply (Hclean h Hin) | by apply Hquotes]. }
  destruct (Hloops [] [] [] []) as (rows1 & rows2 & Hl1 & Hl2 & Hrows).
  cbn [app] in Hl1, Hl2.
  exists (match rows1 with [] => None | _ => Some rows1 end).
  destruct (get_realtime_data_rows yf_info hs) as [-> ->]. rewrite Hl2. cbn [fst snd].
  assert (Hdata : default [] (match rows1 with [] => None | _ => Some rows1 end) = rows1)
    by (by destruct rows1).
  rewrite Hdata. split; [| split; [done | split; [done | by apply aggregate_agree]]].
  unfold level1_tracker.get_portfolio_summary, level1_tracker.keys, portfolio_of.
  rewrite <- list_fmap_compose.
  assert (Hkeys : (fst ∘ (fun h => (level2_dashboard.h_Ticker h, holdings_dict h))) <$> hs =
                  level2_dashboard.h_Ticker <$> hs) by done.
  rewrite Hkeys, Hfetch. cbn [mbind result_bind].
  unfold level1_tracker.summarize. fold (portfolio_of hs). by rewrite Hl1.
Qed.

Lemma X18_console_and_dashboard_agree_witness :
  exists frame,
    level1_tracker.get_portfolio_summary yf_sample (portfolio_of [holding_X]) =
      Ok (frame, []) /\
    (level2_dashboard.get_realtime_data yf_sample
       (level2_dashboard.parse_portfolio_input (Some (Ok [holding_X]))).1).2 = [] /\
    Forall2 same_figures (default [] frame)
      (default [] (level2_dashboard.get_realtime_data yf_sample
                     (level2_dashboard.parse_portfolio_input (Some (Ok [holding_X]))).1).1) /\
    same_totals
      (level1_tracker.aggregate (default [] frame))
      (level2_dashboard.global_metrics
         (default [] (level2_dashboard.get_realtime_data yf_sample
                        (level2_dashboard.parse_portfolio_input (Some (Ok [holding_X]))).1).1)).
Proof.
  apply (X18_console_and_dashboard_agree yf_sample [holding_X]).
  - repeat constructor. by intros H%elem_of_nil.
  - repeat constructor.
  - repeat constructor. exists quote_X, 110, 108. by repeat split.
Defined.

(** ** Totals of the dashboard that are not negative *)

(** X19: when no row of the frame has a negative daily gain or a negative
    total profit, none of the figures of the tiles is negative: the total
    daily gain, the portfolio percentage, the lifetime profit and the
    percentage shown under it, whatever the previous closes and the costs
    are. *)
Theorem X19_dashboard_no_loss_totals (realtime_df : list level2_dashboard.row) :
  Forall (fun r => 0 <= level2_dashboard.Daily_Gain_Loss_USD r /\
                   0 <= level2_dashboard.Total_PL_USD r) realtime_df ->
  0 <= total_daily_gain (level2_dashboard.global_metrics realtime_df) /\
  0 <= portfolio_daily_percent (level2_dashboard.global_metrics realtime_df) /\
  0 <= sum_total_pl (level2_dashboard.global_metrics realtime_df) /\
  0 <= level2_dashboard.total_pl_delta realtime_df.
Proof.
  intros Hdf.
  assert (Hgain : 0 <= col_sum level2_dashboard.Daily_Gain_Loss_USD realtime_df).
  { apply col_sum_nonneg. eapply Forall_impl; [exact Hdf |]. by intros r [H _]. }
  assert (Hpl : 0 <= col_sum level2_dashboard.Total_PL_USD realtime_df).
  { apply col_sum_nonneg. eapply Forall_impl; [exact Hdf |]. by intros r [_ H]. }
  split; [exact Hgain |]. split; [| split; [exact Hpl |]].
  - cbn. destruct (Qgtb _ 0) eqn:E; [| done].
    apply Qgtb_true in E. by apply Qdiv_percent_nonneg.
  - unfold level2_dashboard.total_pl_delta. destruct (Qgtb _ 0) eqn:E; [| done].
    apply Qgtb_true in E. by apply Qdiv_percent_nonneg.
Qed.

Lemma X19_dashboard_no_loss_totals_witness :
  0 <= total_daily_gain (level2_dashboard.global_metrics [dashboard_row "X" 110 108 10 100]) /\
  0 <= portfolio_daily_percent
         (level2_dashboard.global_metrics [dashboard_row "X" 110 108 10 100]) /\
  0 <= sum_total_pl (level2_dashboard.global_metrics [dashboard_row "X" 110 108 10 100]) /\
  0 <= level2_dashboard.total_pl_delta [dashboard_row "X" 110 108 10 100].
Proof.
  apply X19_dashboard_no_loss_totals. repeat constructor; by vm_compute.
Defined.
